(** * RapidMoc: the driver of [rapidmoc/rapidmoc.py]

    A shallow embedding of [get_config_opt], [call_plotdiag] and [main],
    together with the part of Python's [configparser.ConfigParser] they use
    ([has_option], [get], [set], [getboolean], with option-name folding and
    [BasicInterpolation]).  A run is an error-and-state computation over the
    parser object that also logs the calls made to the other modules of the
    package.  Definitions come first, facts after. *)

From Stdlib Require Import Ascii String.
From stdpp Require Import base option gmap strings list sorting.

Local Open Scope string_scope.

(** ** Exceptions and results *)


Inductive Exn :=
| NoSectionError (section : string)
| NoOptionError (option section : string)
| InterpolationSyntaxError (option section : string)
| InterpolationMissingOptionError (option section var : string)
| InterpolationDepthError (option section : string)
| ValueError (msg : string)
| InvalidInterpolationSyntax (value : string) (position : Z)
| StageError (name : string).

(** [InvalidInterpolationSyntax value position] is the [ValueError] that
    [BasicInterpolation.before_set] raises, whose text is
    ["invalid interpolation syntax in %r at position %d" % (value, position)];
    it is kept as the two values that are formatted.  [ValueError msg] is a
    [ValueError] with the text [msg]. *)

Inductive result (A : Type) :=
| Ok (a : A)
| Raise (e : Exn).

Arguments Ok {A} a.
Arguments Raise {A} e.

Definition rbind {A B} (r : result A) (k : A -> result B) : result B :=
  match r with
  | Ok a => k a
  | Raise e => Raise e
  end.

(** ** Strings as Python uses them here *)

Definition percent : ascii := "%"%char.

(** [str.lower], on the letters A to Z.  Strings are the bytes of the text:
    on a name whose cased letters are all ASCII this is what Python computes,
    and the option names the driver itself uses are such names, in lower case
    already.  Python folds the cased letters outside ASCII as well; a name
    with such letters is folded here in its ASCII letters only. *)
Definition lower_ascii (a : ascii) : ascii :=
  let n := nat_of_ascii a in
  if (65 <=? n)%nat && (n <=? 90)%nat then ascii_of_nat (n + 32) else a.

Fixpoint lower (s : string) : string :=
  match s with
  | EmptyString => EmptyString
  | String a s' => String (lower_ascii a) (lower s')
  end.

(** ['%' in s] *)
Fixpoint has_percent (s : string) : bool :=
  match s with
  | EmptyString => false
  | String a s' => if Ascii.eqb a percent then true else has_percent s'
  end.

(** [s.find('%')]: the number of characters before the first [%], or [-1].
    A character is counted at its first byte (the bytes 128 to 191 continue a
    character in UTF-8). *)
Definition continues_character (a : ascii) : bool :=
  let n := nat_of_ascii a in (128 <=? n)%nat && (n <? 192)%nat.

Fixpoint find_percent_from (i : Z) (s : string) : Z :=
  match s with
  | EmptyString => (-1)%Z
  | String a s' =>
      if Ascii.eqb a percent then i
      else find_percent_from (if continues_character a then i else (i + 1)%Z) s'
  end.

Definition find_percent (s : string) : Z := find_percent_from 0 s.

(** [s.replace('%%', '')] *)
Fixpoint drop_escaped (s : string) : string :=
  match s with
  | EmptyString => EmptyString
  | String a s' =>
      match s' with
      | String b s'' =>
          if Ascii.eqb a percent && Ascii.eqb b percent then drop_escaped s''
          else String a (drop_escaped s')
      | EmptyString => String a EmptyString
      end
  end.

(** ** configparser.ConfigParser *)

Module ConfigParser.

(** The parser object: the DEFAULT section and the named sections, each a
    dictionary from option names to values. *)
Record t := mk {
  defaults : gmap string string;
  sections : gmap string (gmap string string)
}.

Definition default_section : string := "DEFAULT".

Definition MAX_INTERPOLATION_DEPTH : nat := 10.

Definition optionxform (option : string) : string := lower option.

(** [not section or section == self.default_section] *)
Definition is_default (section : string) : bool :=
  String.eqb section "" || String.eqb section default_section.

Definition has_option (c : t) (section option : string) : bool :=
  if is_default section then
    bool_decide (is_Some (defaults c !! optionxform option))
  else
    match sections c !! section with
    | None => false
    | Some d =>
        bool_decide (is_Some (d !! optionxform option))
        || bool_decide (is_Some (defaults c !! optionxform option))
    end.

(** The name up to the first [')'] and what follows that [')']. *)
Fixpoint until_rparen (s : string) : option (string * string) :=
  match s with
  | EmptyString => None
  | String a s' =>
      if Ascii.eqb a ")"%char then Some (EmptyString, s')
      else match until_rparen s' with
           | Some (name, rest) => Some (String a name, rest)
           | None => None
           end
  end.

(** [_KEYCRE.match(s)] for [_KEYCRE = %\(([^)]+)\)s]: the variable name and
    the text after the match. *)
Definition keycre_match (s : string) : option (string * string) :=
  match s with
  | String a (String b s1) =>
      if Ascii.eqb a percent && Ascii.eqb b "("%char then
        match until_rparen s1 with
        | Some (String c name, String d rest) =>
            if Ascii.eqb d "s"%char then Some (String c name, rest) else None
        | _ => None
        end
      else None
  | _ => None
  end.

(** [_KEYCRE.sub('', s)] *)
Fixpoint keycre_sub (fuel : nat) (s : string) : string :=
  match fuel with
  | O => s
  | S fuel' =>
      match s with
      | EmptyString => EmptyString
      | String a s' =>
          match keycre_match s with
          | Some (_, rest) => keycre_sub fuel' rest
          | None => String a (keycre_sub fuel' s')
          end
      end
  end.

(** [BasicInterpolation.before_set] *)
Definition before_set (value : string) : result string :=
  let tmp_value := drop_escaped value in
  let tmp_value := keycre_sub (String.length tmp_value) tmp_value in
  if has_percent tmp_value then
    Raise (InvalidInterpolationSyntax value (find_percent tmp_value))
  else Ok value.

(** The [while rest:] loop of [BasicInterpolation._interpolate_some], which
    consumes at least one character a turn; [deeper] is the call of
    [_interpolate_some] on the value of a variable, one level down. *)
Fixpoint interpolate_loop (deeper : string -> result string)
    (option section : string) (map : gmap string string)
    (fuel : nat) (rest : string) : result string :=
  match fuel with
  | O => Ok EmptyString
  | S fuel' =>
      match rest with
      | EmptyString => Ok EmptyString
      | String a rest1 =>
          if negb (Ascii.eqb a percent) then
            rbind (interpolate_loop deeper option section map fuel' rest1)
                  (fun tl => Ok (String a tl))
          else
            match rest1 with
            | String c rest2 =>
                if Ascii.eqb c percent then
                  rbind (interpolate_loop deeper option section map fuel' rest2)
                        (fun tl => Ok (String percent tl))
                else if Ascii.eqb c "("%char then
                  match keycre_match rest with
                  | None => Raise (InterpolationSyntaxError option section)
                  | Some (name, rest3) =>
                      let var := optionxform name in
                      match map !! var with
                      | None =>
                          Raise (InterpolationMissingOptionError
                                   option section var)
                      | Some v =>
                          rbind (if has_percent v then deeper v else Ok v)
                            (fun hd =>
                               rbind (interpolate_loop deeper option section
                                        map fuel' rest3)
                                 (fun tl => Ok (hd +:+ tl)))
                      end
                  end
                else Raise (InterpolationSyntaxError option section)
            | EmptyString => Raise (InterpolationSyntaxError option section)
            end
      end
  end.

(** [BasicInterpolation._interpolate_some]: [depth_left] counts the levels
    still allowed below [MAX_INTERPOLATION_DEPTH]. *)
Fixpoint interpolate_some (depth_left : nat) (option section : string)
    (map : gmap string string) (rest : string) : result string :=
  match depth_left with
  | O => Raise (InterpolationDepthError option section)
  | S depth_left' =>
      interpolate_loop (interpolate_some depth_left' option section map)
        option section map (String.length rest) rest
  end.

(** [BasicInterpolation.before_get] *)
Definition before_get (section option value : string)
    (d : gmap string string) : result string :=
  interpolate_some MAX_INTERPOLATION_DEPTH option section d value.

(** [_unify_values(section, None)]: the section's dictionary chained in
    front of the defaults. *)
Definition unify_values (c : t) (section : string)
    : result (gmap string string) :=
  match sections c !! section with
  | Some d => Ok (d ∪ defaults c)
  | None =>
      if String.eqb section default_section then Ok (defaults c)
      else Raise (NoSectionError section)
  end.

(** [get(section, option, raw=True)] *)
Definition get_raw (c : t) (section option : string) : result string :=
  rbind (unify_values c section) (fun d =>
    let option := optionxform option in
    match d !! option with
    | None => Raise (NoOptionError option section)
    | Some value => Ok value
    end).

Definition get (c : t) (section option : string) : result string :=
  rbind (unify_values c section) (fun d =>
    let option := optionxform option in
    match d !! option with
    | None => Raise (NoOptionError option section)
    | Some value => before_get section option value d
    end).

(** [set(section, option, value)] with a [str] value: the new parser
    object, or the exception raised before anything is stored. *)
Definition set (c : t) (section option value : string) : result t :=
  rbind (if String.eqb value "" then Ok value else before_set value)
    (fun value =>
       if is_default section then
         Ok (mk (<[optionxform option := value]> (defaults c)) (sections c))
       else
         match sections c !! section with
         | None => Raise (NoSectionError section)
         | Some d =>
             Ok (mk (defaults c)
                    (<[section := <[optionxform option := value]> d]>
                       (sections c)))
         end).

(** [BOOLEAN_STATES] *)
Definition convert_to_boolean (value : string) : result bool :=
  let v := lower value in
  if String.eqb v "1" || String.eqb v "yes" || String.eqb v "true"
     || String.eqb v "on" then Ok true
  else if String.eqb v "0" || String.eqb v "no" || String.eqb v "false"
          || String.eqb v "off" then Ok false
  else Raise (ValueError ("Not a boolean: " +:+ value)).

Definition getboolean (c : t) (section option : string) : result bool :=
  rbind (get c section option) convert_to_boolean.

End ConfigParser.

(** ** The other modules of the package *)

(** Modelled from the spec: the modules [sections], [transports],
    [observations] and [plotdiag], and the object returned by
    [calc_transports_from_sections] (its [filepath] and [close]), are not
    part of the source at hand.  The spec (component design, 4.1 to 4.5, and
    the resource model) gives each of them a contract only: it reads its
    arguments, mutates none of them (in particular not the configuration),
    and either hands back its product or raises.  A collaborator is therefore a
    function from its arguments to a [result]; nothing else about it is
    assumed. *)
Record Collaborators := {
  ZonalSection : Type;
  TransportResult : Type;
  ObservationSet : Type;
  sections_ZonalSections :
    string -> ConfigParser.t -> string -> result ZonalSection;
  sections_interpolate : ZonalSection -> ZonalSection -> result ZonalSection;
  transports_calc_transports_from_sections :
    ConfigParser.t -> ZonalSection -> ZonalSection -> ZonalSection ->
    ZonalSection -> result TransportResult;
  observations_HeatTransportObs :
    string -> option string -> result ObservationSet;
  observations_FloridaCurrentObs :
    string -> option string -> result ObservationSet;
  observations_StreamFunctionObs :
    string -> option string -> result ObservationSet;
  observations_VolumeTransportObs :
    string -> option string -> result ObservationSet;
  (** [plot_diagnostics(trans, name, outdir, date_format, obs_vol, obs_fc,
      obs_oht, obs_sf)] *)
  plotdiag_plot_diagnostics :
    TransportResult -> string -> string -> string ->
    option ObservationSet -> option ObservationSet ->
    option ObservationSet -> option ObservationSet -> result unit;
  trans_filepath : TransportResult -> result string;
  trans_close : TransportResult -> result unit
}.

(** The command-line namespace returned by [get_args]. *)
Record Namespace := {
  config_file : string;
  tfile : string;
  sfile : string;
  taufile : string;
  vfile : string;
  name : option string;
  outdir : option string
}.

Inductive ObsKind :=
| HeatTransport
| FloridaCurrent
| StreamFunction
| VolumeTransport.

Inductive Outcome :=
| Returned
| Raised (e : Exn).

Definition outcome_of {A} (r : result A) : Outcome :=
  match r with
  | Ok _ => Returned
  | Raise e => Raised e
  end.

(** ** The driver *)

Section Pipeline.

Context (X : Collaborators).

(** A call that leaves [rapidmoc.py], with the arguments it is made with. *)
Inductive Call :=
| CallZonalSections (f : string) (config : ConfigParser.t) (section : string)
| CallInterpolate (src tgt : ZonalSection X)
| CallCalcTransports (config : ConfigParser.t)
    (v tau t_on_v s_on_v : ZonalSection X)
| CallObs (kind : ObsKind) (f : string) (time_avg : option string)
| CallPlot (trans : TransportResult X) (name outdir date_format : string)
    (obs_vol obs_fc obs_oht obs_sf : option (ObservationSet X))
| CallFilepath (trans : TransportResult X)
| CallPrint (line : string)
| CallClose (trans : TransportResult X).

Definition Event : Type := Call * Outcome.

(** What a piece of the run leaves behind: the parser object as it is
    afterwards, the calls made (oldest first) and the value or exception. *)
Record Run (A : Type) := mkRun {
  config_after : ConfigParser.t;
  events : list Event;
  outcome : result A
}.

Arguments mkRun {A} _ _ _.
Arguments config_after {A} _.
Arguments events {A} _.
Arguments outcome {A} _.

(** A computation over the parser object [config]. *)
Definition M (A : Type) : Type := ConfigParser.t -> Run A.

Definition ret {A} (a : A) : M A := fun c => mkRun c [] (Ok a).

Definition bind {A B} (m : M A) (k : A -> M B) : M B :=
  fun c =>
    let r := m c in
    match outcome r with
    | Ok a =>
        let r' := k a (config_after r) in
        mkRun (config_after r') (events r ++ events r') (outcome r')
    | Raise e => mkRun (config_after r) (events r) (Raise e)
    end.

Notation "x <- m ;; k" := (bind m (fun x => k))
  (at level 100, m at next level, right associativity).

Notation "m ;; k" := (bind m (fun _ => k))
  (at level 100, right associativity).

(** A read of the parser object. *)
Definition reading {A} (f : ConfigParser.t -> result A) : M A :=
  fun c => mkRun c [] (f c).

(** A call to a collaborator that is handed the parser object or not. *)
Definition calling {A} (call : ConfigParser.t -> Call)
    (f : ConfigParser.t -> result A) : M A :=
  fun c => mkRun c [(call c, outcome_of (f c))] (f c).

Definition config_has_option (section option : string) : M bool :=
  reading (fun c => Ok (ConfigParser.has_option c section option)).

Definition config_get (section option : string) : M string :=
  reading (fun c => ConfigParser.get c section option).

Definition config_getboolean (section option : string) : M bool :=
  reading (fun c => ConfigParser.getboolean c section option).

Definition config_set (section option value : string) : M unit :=
  fun c =>
    match ConfigParser.set c section option value with
    | Ok c' => mkRun c' [] (Ok tt)
    | Raise e => mkRun c [] (Raise e)
    end.

Definition ZonalSections (f section : string) : M (ZonalSection X) :=
  calling (fun c => CallZonalSections f c section)
          (fun c => sections_ZonalSections X f c section).

Definition interpolate (src tgt : ZonalSection X) : M (ZonalSection X) :=
  calling (fun _ => CallInterpolate src tgt)
          (fun _ => sections_interpolate X src tgt).

Definition calc_transports_from_sections (v tau t_on_v s_on_v : ZonalSection X)
    : M (TransportResult X) :=
  calling (fun c => CallCalcTransports c v tau t_on_v s_on_v)
          (fun c => transports_calc_transports_from_sections X c v tau
                      t_on_v s_on_v).

Definition loader (kind : ObsKind)
    : string -> option string -> result (ObservationSet X) :=
  match kind with
  | HeatTransport => observations_HeatTransportObs X
  | FloridaCurrent => observations_FloridaCurrentObs X
  | StreamFunction => observations_StreamFunctionObs X
  | VolumeTransport => observations_VolumeTransportObs X
  end.

Definition load_obs (kind : ObsKind) (f : string) (time_avg : option string)
    : M (ObservationSet X) :=
  calling (fun _ => CallObs kind f time_avg)
          (fun _ => loader kind f time_avg).

Definition plot_diagnostics (trans : TransportResult X)
    (name outdir date_format : string)
    (obs_vol obs_fc obs_oht obs_sf : option (ObservationSet X)) : M unit :=
  calling (fun _ => CallPlot trans name outdir date_format
                      obs_vol obs_fc obs_oht obs_sf)
          (fun _ => plotdiag_plot_diagnostics X trans name outdir date_format
                      obs_vol obs_fc obs_oht obs_sf).

Definition filepath (trans : TransportResult X) : M string :=
  calling (fun _ => CallFilepath trans) (fun _ => trans_filepath X trans).

Definition print (line : string) : M unit :=
  calling (fun _ => CallPrint line) (fun _ => Ok tt).

Definition close (trans : TransportResult X) : M unit :=
  calling (fun _ => CallClose trans) (fun _ => trans_close X trans).

(** [get_config_opt(config, section, option)] *)
Definition get_config_opt (section opt : string) : M (option string) :=
  has <- config_has_option section opt ;;
  if has then
    value <- config_get section opt ;;
    ret (Some value)
  else ret None.

(** [if f is not None: obs = Loader(f, time_avg=time_avg)], with [obs]
    initialised to [None]. *)
Definition load_if_specified (kind : ObsKind) (f : option string)
    (time_avg : option string) : M (option (ObservationSet X)) :=
  match f with
  | Some f =>
      obs <- load_obs kind f time_avg ;;
      ret (Some obs)
  | None => ret None
  end.

(** [call_plotdiag(config, trans)] *)
Definition call_plotdiag (trans : TransportResult X) : M unit :=
  time_avg <- get_config_opt "observations" "time_avg" ;;
  obs_sf_f <- get_config_opt "observations" "streamfunctions" ;;
  obs_fc_f <- get_config_opt "observations" "florida_current" ;;
  obs_vol_f <- get_config_opt "observations" "volume_transports" ;;
  obs_oht_f <- get_config_opt "observations" "heat_transports" ;;
  obs_oht <- load_if_specified HeatTransport obs_oht_f time_avg ;;
  obs_fc <- load_if_specified FloridaCurrent obs_fc_f time_avg ;;
  obs_sf <- load_if_specified StreamFunction obs_sf_f time_avg ;;
  obs_vol <- load_if_specified VolumeTransport obs_vol_f time_avg ;;
  outdir <- config_get "output" "outdir" ;;
  date_format <- config_get "output" "date_format" ;;
  name <- config_get "output" "name" ;;
  plot_diagnostics trans name outdir date_format
                   obs_vol obs_fc obs_oht obs_sf.

(** [if value is not None: config.set('output', option, value)] *)
Definition override (opt : string) (value : option string) : M unit :=
  match value with
  | Some value => config_set "output" opt value
  | None => ret tt
  end.

(** [main()], from the namespace [get_args] returned, on the parser object
    [get_config] returned. *)
Definition main (args : Namespace) : M unit :=
  override "name" (name args) ;;
  override "outdir" (outdir args) ;;
  t <- ZonalSections (tfile args) "temperature" ;;
  s <- ZonalSections (sfile args) "salinity" ;;
  tau <- ZonalSections (taufile args) "taux" ;;
  v <- ZonalSections (vfile args) "meridional_velocity" ;;
  t_on_v <- interpolate t v ;;
  s_on_v <- interpolate s v ;;
  trans <- calc_transports_from_sections v tau t_on_v s_on_v ;;
  plot <- config_getboolean "output" "plot" ;;
  (if plot then call_plotdiag trans else ret tt) ;;
  path <- filepath trans ;;
  print ("SAVING: " +:+ path) ;;
  close trans.

End Pipeline.

Arguments mkRun {X A} _ _ _.
Arguments config_after {X A} _.
Arguments events {X A} _.
Arguments outcome {X A} _.
Arguments CallZonalSections {X} _ _ _.
Arguments CallInterpolate {X} _ _.
Arguments CallCalcTransports {X} _ _ _ _ _.
Arguments CallObs {X} _ _ _.
Arguments CallPlot {X} _ _ _ _ _ _ _ _.
Arguments CallFilepath {X} _.
Arguments CallPrint {X} _.
Arguments CallClose {X} _.

(** ** Notions the statements use *)

Section Notions.

Context {X : Collaborators}.

(** A computation leaves the parser object as it is. *)
Definition preserves_config {A} (m : M X A) : Prop :=
  forall c, config_after (m c) = c.

(** A computation stops at the first call that raises, with that exception. *)
Definition fails_fast {A} (m : M X A) : Prop :=
  forall c i call e,
    events (m c) !! i = Some (call, Raised e) ->
    outcome (m c) = Raise e /\ length (events (m c)) = S i.

(** What [get_config_opt] returns, as a function of the parser object. *)
Definition get_config_opt_value (c : ConfigParser.t) (section opt : string)
    : result (option string) :=
  if ConfigParser.has_option c section opt then
    rbind (ConfigParser.get c section opt) (fun value => Ok (Some value))
  else Ok None.

(** The configuration key of each observation kind. *)
Definition obs_key (kind : ObsKind) : string :=
  match kind with
  | HeatTransport => "heat_transports"
  | FloridaCurrent => "florida_current"
  | StreamFunction => "streamfunctions"
  | VolumeTransport => "volume_transports"
  end.

(** The observation set a call to the reporter carries for a kind. *)
Definition passed_for (kind : ObsKind) (call : Call X)
    : option (option (ObservationSet X)) :=
  match call with
  | CallPlot _ _ _ _ obs_vol obs_fc obs_oht obs_sf =>
      Some match kind with
           | HeatTransport => obs_oht
           | FloridaCurrent => obs_fc
           | StreamFunction => obs_sf
           | VolumeTransport => obs_vol
           end
  | _ => None
  end.

(** What [call_plotdiag] does when no observation is to be loaded: the three
    output options are read and the reporter is called with no observation
    set. *)
Definition plot_model_only (trans : TransportResult X) : M X unit :=
  bind X (config_get X "output" "outdir") (fun outdir =>
  bind X (config_get X "output" "date_format") (fun date_format =>
  bind X (config_get X "output" "name") (fun name =>
  plot_diagnostics X trans name outdir date_format None None None None))).

(** The parser object after the two command-line overrides. *)
Definition overridden (args : Namespace) (c0 : ConfigParser.t)
    : result ConfigParser.t :=
  rbind (match name args with
         | Some value => ConfigParser.set c0 "output" "name" value
         | None => Ok c0
         end)
    (fun c1 =>
       match outdir args with
       | Some value => ConfigParser.set c1 "output" "outdir" value
       | None => Ok c1
       end).

(** [main] from [# Write data] on. *)
Definition save (trans : TransportResult X) : M X unit :=
  bind X (filepath X trans) (fun path =>
  bind X (print X ("SAVING: " +:+ path)) (fun _ =>
  close X trans)).

(** [main] from [# Plot diagnostics] on. *)
Definition finish (trans : TransportResult X) : M X unit :=
  bind X (config_getboolean X "output" "plot") (fun plot =>
  bind X (if plot then call_plotdiag X trans else ret X tt) (fun _ =>
  save trans)).

(** [main] from [# Read data] on. *)
Definition stages (args : Namespace) : M X unit :=
  bind X (ZonalSections X (tfile args) "temperature") (fun t =>
  bind X (ZonalSections X (sfile args) "salinity") (fun s =>
  bind X (ZonalSections X (taufile args) "taux") (fun tau =>
  bind X (ZonalSections X (vfile args) "meridional_velocity") (fun v =>
  bind X (interpolate X t v) (fun t_on_v =>
  bind X (interpolate X s v) (fun s_on_v =>
  bind X (calc_transports_from_sections X v tau t_on_v s_on_v) (fun trans =>
  finish trans))))))).

(** The position of a call in the pipeline. *)
Definition phase (call : Call X) : nat :=
  match call with
  | CallZonalSections _ _ _ => 0
  | CallInterpolate _ _ => 1
  | CallCalcTransports _ _ _ _ _ => 2
  | CallObs _ _ _ => 3
  | CallPlot _ _ _ _ _ _ _ _ => 4
  | CallFilepath _ | CallPrint _ | CallClose _ => 5
  end.

(** The calls up to the transport computation, when each of them returned. *)
Definition loading (args : Namespace) (c : ConfigParser.t)
    (t s tau v t_on_v s_on_v : ZonalSection X) : list (Event X) :=
  [(CallZonalSections (tfile args) c "temperature", Returned);
   (CallZonalSections (sfile args) c "salinity", Returned);
   (CallZonalSections (taufile args) c "taux", Returned);
   (CallZonalSections (vfile args) c "meridional_velocity", Returned);
   (CallInterpolate t v, Returned);
   (CallInterpolate s v, Returned)].

(** What follows the transport computation. *)
Definition after_calc (r : result (TransportResult X)) (c : ConfigParser.t)
    : Run X unit :=
  match r with
  | Ok trans => finish trans c
  | Raise e => mkRun c [] (Raise e)
  end.

(** The number of [close] calls that returned. *)
Fixpoint closed (evs : list (Event X)) : nat :=
  match evs with
  | [] => 0
  | (CallClose _, Returned) :: evs' => S (closed evs')
  | _ :: evs' => closed evs'
  end.

(** The parser object a call is handed, when it is handed one. *)
Definition config_of_call (call : Call X) : option ConfigParser.t :=
  match call with
  | CallZonalSections _ c _ => Some c
  | CallCalcTransports c _ _ _ _ => Some c
  | _ => None
  end.

(** A call that is handed the parser object is handed [c]. *)
Definition handed (c : ConfigParser.t) (call : Call X) : Prop :=
  forall c', config_of_call call = Some c' -> c' = c.

(** The output name and directory a call works with are those of the parser
    object [c]: the call is handed [c], or is the reporter called with what
    [get] returns on [c]. *)
Definition output_from (c : ConfigParser.t) (call : Call X) : Prop :=
  match call with
  | CallZonalSections _ c' _ | CallCalcTransports c' _ _ _ _ => c' = c
  | CallPlot _ name outdir _ _ _ _ _ =>
      ConfigParser.get c "output" "name" = Ok name /\
      ConfigParser.get c "output" "outdir" = Ok outdir
  | _ => True
  end.

(** The exceptions [BasicInterpolation] raises while a value is expanded. *)
Definition is_interpolation_error (e : Exn) : bool :=
  match e with
  | InterpolationSyntaxError _ _
  | InterpolationMissingOptionError _ _ _
  | InterpolationDepthError _ _ => true
  | _ => false
  end.

(** The place of a call in [call_plotdiag]: the loaders in the order of the
    [if] statements, then the reporter. *)
Definition plot_rank (call : Call X) : nat :=
  match call with
  | CallObs HeatTransport _ _ => 0
  | CallObs FloridaCurrent _ _ => 1
  | CallObs StreamFunction _ _ => 2
  | CallObs VolumeTransport _ _ => 3
  | CallPlot _ _ _ _ _ _ _ _ => 4
  | _ => 5
  end.

(** The calls of a computation come in strictly increasing rank, all within
    [lo] and [hi]. *)
Definition ranked (lo hi : nat) {A} (m : M X A) : Prop :=
  forall c,
    StronglySorted (fun a b : Event X => plot_rank a.1 < plot_rank b.1)
                   (events (m c)) /\
    Forall (fun ev : Event X => lo <= plot_rank ev.1 < hi) (events (m c)).

(** The result a call works on, when it works on one. *)
Definition trans_of_call (call : Call X) : option (TransportResult X) :=
  match call with
  | CallPlot trans _ _ _ _ _ _ _ => Some trans
  | CallFilepath trans => Some trans
  | CallClose trans => Some trans
  | _ => None
  end.

(** Modelled from the spec: the bodies of [plot_diagnostics] and of the
    result's [close] are not part of the source at hand.  By the spec the
    reporter "writes files to disk" (4.5) and the result is "closed/flushed"
    by the terminal save step (3), whereas section loading, interpolation, the
    transport computation and observation loading have no side effect beyond
    reading (4.1 to 4.4).  So a call may have written an output file when it
    is one of these two. *)
Definition may_write (call : Call X) : bool :=
  match call with
  | CallPlot _ _ _ _ _ _ _ _ | CallClose _ => true
  | _ => false
  end.

(** The calls of a computation come in the order of the pipeline, all within
    the phases [lo] to [hi]. *)
Definition phased (lo hi : nat) {A} (m : M X A) : Prop :=
  forall c,
    StronglySorted (fun a b : Event X => phase a.1 <= phase b.1)
                   (events (m c)) /\
    Forall (fun ev : Event X => lo <= phase ev.1 <= hi) (events (m c)).

(** The five options [call_plotdiag] reads from the [observations] section,
    in the order it reads them. *)
Definition observation_options : list string :=
  ["time_avg"; "streamfunctions"; "florida_current"; "volume_transports";
   "heat_transports"].

End Notions.

Arguments plot_model_only : clear implicits.
Arguments save : clear implicits.
Arguments finish : clear implicits.
Arguments stages : clear implicits.
Arguments loading : clear implicits.
Arguments after_calc : clear implicits.

(** ** A stand-in for the other modules, to run the driver on concrete inputs *)

(** A parser with the given named sections and no defaults. *)
Definition config_of (l : list (string * list (string * string)))
    : ConfigParser.t :=
  ConfigParser.mk ∅ (list_to_map (prod_map id list_to_map <$> l)).

(** An [output] section with escaped percent signs and a reference to other
    options. *)
Definition cfg_demo : ConfigParser.t :=
  config_of [("output", [("name", "run"); ("outdir", "/out");
                         ("date_format", "%%Y%%m%%d"); ("plot", "True");
                         ("tag", "%(name)s_%(outdir)s")])].

(** Sections and observation sets are strings that record how they were
    made, the result is the name of its file; a file called [missing.nc]
    cannot be loaded, and plotting fails when [plot_ok] is off. *)
Definition stub (plot_ok : bool) : Collaborators := {|
  ZonalSection := string;
  TransportResult := string;
  ObservationSet := string;
  sections_ZonalSections f _ section :=
    if String.eqb f "missing.nc" then Raise (StageError "DataLoadError")
    else Ok (section +:+ "@" +:+ f);
  sections_interpolate src tgt := Ok (src +:+ ">" +:+ tgt);
  transports_calc_transports_from_sections _ _ _ _ _ := Ok "transports.nc";
  observations_HeatTransportObs f _ :=
    if String.eqb f "missing.nc" then Raise (StageError "DataLoadError")
    else Ok ("oht:" +:+ f);
  observations_FloridaCurrentObs f _ :=
    if String.eqb f "missing.nc" then Raise (StageError "DataLoadError")
    else Ok ("fc:" +:+ f);
  observations_StreamFunctionObs f _ :=
    if String.eqb f "missing.nc" then Raise (StageError "DataLoadError")
    else Ok ("sf:" +:+ f);
  observations_VolumeTransportObs f _ :=
    if String.eqb f "missing.nc" then Raise (StageError "DataLoadError")
    else Ok ("vol:" +:+ f);
  plotdiag_plot_diagnostics _ _ _ _ _ _ _ _ :=
    if plot_ok then Ok tt else Raise (StageError "PlotError");
  trans_filepath trans := Ok trans;
  trans_close _ := Ok tt
|}.

(** A command line with the two overrides as given. *)
Definition args_demo (name outdir : option string) : Namespace := {|
  config_file := "config.ini";
  tfile := "t.nc"; sfile := "s.nc"; taufile := "tau.nc"; vfile := "v.nc";
  name := name; outdir := outdir
|}.

(** A configuration with an [output] section and two of the four observation
    kinds. *)
Definition cfg_obs (plot : string) : ConfigParser.t :=
  config_of
    [("output", [("name", "run"); ("outdir", "/out");
                 ("date_format", "%%Y%%m%%d"); ("plot", plot)]);
     ("observations", [("time_avg", "monthly");
                       ("heat_transports", "oht.nc");
                       ("volume_transports", "vol.nc")])].

(** The same without an [observations] section. *)
Definition cfg_plain (plot : string) : ConfigParser.t :=
  config_of
    [("output", [("name", "run"); ("outdir", "/out");
                 ("date_format", "%%Y%%m%%d"); ("plot", plot)])].

(** The stand-in with a [close] that fails. *)
Definition stub_close_fails : Collaborators := {|
  ZonalSection := string;
  TransportResult := string;
  ObservationSet := string;
  sections_ZonalSections f _ section := Ok (section +:+ "@" +:+ f);
  sections_interpolate src tgt := Ok (src +:+ ">" +:+ tgt);
  transports_calc_transports_from_sections _ _ _ _ _ := Ok "transports.nc";
  observations_HeatTransportObs f _ := Ok ("oht:" +:+ f);
  observations_FloridaCurrentObs f _ := Ok ("fc:" +:+ f);
  observations_StreamFunctionObs f _ := Ok ("sf:" +:+ f);
  observations_VolumeTransportObs f _ := Ok ("vol:" +:+ f);
  plotdiag_plot_diagnostics _ _ _ _ _ _ _ _ := Ok tt;
  trans_filepath trans := Ok trans;
  trans_close _ := Raise (StageError "IOError")
|}.

(** An [observations] section with none of the four kinds, and a [time_avg]
    that refers to an option that is nowhere. *)
Definition cfg_time_avg_only : ConfigParser.t :=
  config_of
    [("output", [("name", "run"); ("outdir", "/out");
                 ("date_format", "%%Y%%m%%d"); ("plot", "yes")]);
     ("observations", [("time_avg", "%(nowhere)s")])].

(** A parser with a default for [time_avg] and no section. *)
Definition cfg_defaults_only : ConfigParser.t :=
  ConfigParser.mk {["time_avg" := "monthly"]} ∅.

(** A configuration whose [time_avg] refers to an option that is nowhere. *)
Definition cfg_unreadable : ConfigParser.t :=
  config_of
    [("output", [("name", "run"); ("outdir", "/out");
                 ("date_format", "%%Y%%m%%d"); ("plot", "yes")]);
     ("observations", [("time_avg", "%(nowhere)s");
                       ("heat_transports", "oht.nc")])].

(** The parser [read] leaves when the configuration file is not there. *)
Definition cfg_empty : ConfigParser.t := ConfigParser.mk ∅ ∅.

(** * Facts *)

(** ** The parser *)

Example get_demo_name :
  ConfigParser.get cfg_demo "output" "name" = Ok "run".
Proof. vm_compute. reflexivity. Qed.

Example get_demo_df :
  ConfigParser.get cfg_demo "output" "date_format" = Ok "%Y%m%d".
Proof. vm_compute. reflexivity. Qed.

Example get_demo_tag :
  ConfigParser.get cfg_demo "output" "tag" = Ok "run_/out".
Proof. vm_compute. reflexivity. Qed.

Example get_demo_plot :
  ConfigParser.getboolean cfg_demo "output" "plot" = Ok true.
Proof. vm_compute. reflexivity. Qed.

Example get_demo_missing :
  ConfigParser.get cfg_demo "output" "Plots"
  = Raise (NoOptionError "plots" "output").
Proof. vm_compute. reflexivity. Qed.

Example get_demo_no_section :
  ConfigParser.get cfg_demo "observations" "time_avg"
  = Raise (NoSectionError "observations").
Proof. vm_compute. reflexivity. Qed.

Example has_option_demo :
  ConfigParser.has_option cfg_demo "output" "NAME" = true /\
  ConfigParser.has_option cfg_demo "output" "time_avg" = false /\
  ConfigParser.has_option cfg_demo "observations" "time_avg" = false.
Proof. vm_compute. repeat split; reflexivity. Qed.

Example has_option_default :
  let c := ConfigParser.mk {["time_avg" := "monthly"]}
                           {["observations" := ∅]} in
  ConfigParser.has_option c "observations" "time_avg" = true /\
  ConfigParser.has_option c "output" "time_avg" = false /\
  ConfigParser.get c "observations" "time_avg" = Ok "monthly".
Proof. vm_compute. repeat split; reflexivity. Qed.

Example getboolean_demo_bad :
  rbind (ConfigParser.set cfg_demo "output" "plot" "maybe")
        (fun c => ConfigParser.getboolean c "output" "plot")
  = Raise (ValueError "Not a boolean: maybe").
Proof. vm_compute. reflexivity. Qed.

Example get_demo_bad_reference :
  rbind (ConfigParser.set cfg_demo "output" "name" "%(nowhere)s")
        (fun c => ConfigParser.get c "output" "name")
  = Raise (InterpolationMissingOptionError "name" "output" "nowhere").
Proof. vm_compute. reflexivity. Qed.

Example get_demo_loop :
  rbind (ConfigParser.set cfg_demo "output" "name" "%(name)s")
        (fun c => ConfigParser.get c "output" "name")
  = Raise (InterpolationDepthError "name" "output").
Proof. vm_compute. reflexivity. Qed.

Example set_demo_no_section :
  ConfigParser.set (ConfigParser.mk ∅ ∅) "output" "name" "run"
  = Raise (NoSectionError "output").
Proof. vm_compute. reflexivity. Qed.

Example set_demo_bad :
  ConfigParser.set cfg_demo "output" "name" "50%"
  = Raise (InvalidInterpolationSyntax "50%" 2).
Proof. vm_compute. reflexivity. Qed.

Example set_demo_esc :
  rbind (ConfigParser.set cfg_demo "output" "outdir" "a%%b")
        (fun c => ConfigParser.get c "output" "outdir") = Ok "a%b".
Proof. vm_compute. reflexivity. Qed.

Lemma interpolate_loop_plain deeper option section map fuel (v : string) :
  has_percent v = false -> String.length v <= fuel ->
  ConfigParser.interpolate_loop deeper option section map fuel v = Ok v.
Proof.
  revert v. induction fuel as [|fuel IH]; intros [|a v] Hp Hlen;
    simpl in *; try reflexivity; try lia.
  destruct (Ascii.eqb a percent); [discriminate|]. simpl.
  rewrite IH by (assumption || lia). reflexivity.
Qed.

Lemma before_get_plain section option (v : string) d :
  has_percent v = false -> ConfigParser.before_get section option v d = Ok v.
Proof.
  intros Hp. unfold ConfigParser.before_get. simpl.
  apply interpolate_loop_plain; [exact Hp | lia].
Qed.

Lemma drop_escaped_plain (v : string) :
  has_percent v = false -> drop_escaped v = v.
Proof.
  induction v as [|a v IH]; [reflexivity|]. simpl.
  destruct (Ascii.eqb a percent); [discriminate|]. intros Hp.
  destruct v as [|b v]; [reflexivity|]. simpl. f_equal. apply IH. exact Hp.
Qed.

Lemma keycre_sub_plain fuel (v : string) :
  has_percent v = false -> ConfigParser.keycre_sub fuel v = v.
Proof.
  revert v. induction fuel as [|fuel IH]; intros [|a v] Hp; try reflexivity.
  simpl in *. destruct (Ascii.eqb a percent); [discriminate|].
  destruct v; simpl; f_equal; apply IH; exact Hp.
Qed.

Lemma before_set_plain (v : string) :
  has_percent v = false -> ConfigParser.before_set v = Ok v.
Proof.
  intros Hp. unfold ConfigParser.before_set.
  rewrite drop_escaped_plain, keycre_sub_plain, Hp by exact Hp. reflexivity.
Qed.

(** A successful [set] in a named section stores the value in that section's
    dictionary and changes nothing else. *)
Lemma set_ok c section option value c' :
  ConfigParser.is_default section = false ->
  ConfigParser.set c section option value = Ok c' ->
  exists d,
    ConfigParser.sections c !! section = Some d /\
    c' = ConfigParser.mk (ConfigParser.defaults c)
           (<[section := <[ConfigParser.optionxform option := value]> d]>
              (ConfigParser.sections c)).
Proof.
  intros Hd. unfold ConfigParser.set. rewrite Hd.
  assert ((if String.eqb value "" then Ok value
           else ConfigParser.before_set value) = Ok value \/
          exists e, (if String.eqb value "" then Ok value
                     else ConfigParser.before_set value) = Raise e)
    as [->| [e ->]].
  { destruct (String.eqb value ""); [left; reflexivity|].
    unfold ConfigParser.before_set.
    destruct (has_percent _); [right; eexists|left]; reflexivity. }
  - simpl.
    destruct (ConfigParser.sections c !! section) as [d|]; [|discriminate].
    intros [= <-]. exists d. split; reflexivity.
  - discriminate.
Qed.

Lemma set_plain c section option (value : string) d :
  ConfigParser.is_default section = false ->
  has_percent value = false ->
  ConfigParser.sections c !! section = Some d ->
  ConfigParser.set c section option value =
  Ok (ConfigParser.mk (ConfigParser.defaults c)
        (<[section := <[ConfigParser.optionxform option := value]> d]>
           (ConfigParser.sections c))).
Proof.
  intros Hd Hp Hs. unfold ConfigParser.set.
  rewrite before_set_plain, Hd, Hs by exact Hp.
  destruct (String.eqb value ""); reflexivity.
Qed.

Lemma get_raw_set_same c section option value c' :
  ConfigParser.is_default section = false ->
  ConfigParser.set c section option value = Ok c' ->
  ConfigParser.get_raw c' section option = Ok value.
Proof.
  intros Hd Hset. apply set_ok in Hset as (d & Hs & ->); [|exact Hd].
  unfold ConfigParser.get_raw, ConfigParser.unify_values. simpl.
  rewrite lookup_insert_eq. simpl.
  rewrite lookup_union, lookup_insert_eq.
  destruct (ConfigParser.defaults c !! _); reflexivity.
Qed.

Lemma get_raw_set_other c section option value c' option' :
  ConfigParser.is_default section = false ->
  ConfigParser.set c section option value = Ok c' ->
  ConfigParser.optionxform option <> ConfigParser.optionxform option' ->
  ConfigParser.get_raw c' section option'
  = ConfigParser.get_raw c section option'.
Proof.
  intros Hd Hset Hne. apply set_ok in Hset as (d & Hs & ->); [|exact Hd].
  unfold ConfigParser.get_raw, ConfigParser.unify_values. simpl.
  rewrite lookup_insert_eq, Hs. simpl.
  rewrite !lookup_union, lookup_insert_ne by exact Hne. reflexivity.
Qed.

(** A stored value without [%] is what [get] returns. *)
Lemma get_plain c section option (value : string) :
  ConfigParser.get_raw c section option = Ok value ->
  has_percent value = false ->
  ConfigParser.get c section option = Ok value.
Proof.
  unfold ConfigParser.get_raw, ConfigParser.get.
  destruct (ConfigParser.unify_values c section) as [d|e]; simpl;
    [|discriminate].
  destruct (d !! ConfigParser.optionxform option) as [v|]; [|discriminate].
  intros [= ->] Hp. apply before_get_plain. exact Hp.
Qed.

(** ** Reading runs *)

Section Facts.

Context {X : Collaborators}.

Lemma bind_unfold {A B} (m : M X A) (k : A -> M X B) (c : ConfigParser.t) :
  bind X m k c =
  match outcome (m c) with
  | Ok a =>
      let r' := k a (config_after (m c)) in
      mkRun (config_after r') (events (m c) ++ events r') (outcome r')
  | Raise e => mkRun (config_after (m c)) (events (m c)) (Raise e)
  end.
Proof. reflexivity. Qed.

(** An event of [m ;; k] is one of [m], or one of [k] after [m] returned. *)
Lemma in_events_bind {A B} (m : M X A) (k : A -> M X B) c (ev : Event X) :
  ev ∈ events (bind X m k c) <->
  ev ∈ events (m c) \/
  exists a, outcome (m c) = Ok a /\ ev ∈ events (k a (config_after (m c))).
Proof.
  rewrite bind_unfold. destruct (outcome (m c)) as [a|e] eqn:E; simpl.
  - rewrite elem_of_app. split.
    + intros [H|H]; [left; exact H | right; exists a].
      split; [reflexivity | exact H].
    + intros [H|(a' & Ha & H)]; [left; exact H | right].
      injection Ha as <-. exact H.
  - split; [intros H; left; exact H |].
    intros [H|(a' & Ha & H)]; [exact H | discriminate Ha].
Qed.

Lemma preserves_ret {A} (a : A) : preserves_config (ret X a).
Proof. intros c. reflexivity. Qed.

Lemma preserves_reading {A} (f : ConfigParser.t -> result A) :
  preserves_config (reading X f).
Proof. intros c. reflexivity. Qed.

Lemma preserves_calling {A} call (f : ConfigParser.t -> result A) :
  preserves_config (calling X call f).
Proof. intros c. reflexivity. Qed.

Lemma preserves_bind {A B} (m : M X A) (k : A -> M X B) :
  preserves_config m -> (forall a, preserves_config (k a)) ->
  preserves_config (bind X m k).
Proof.
  intros Hm Hk c. rewrite bind_unfold.
  destruct (outcome (m c)) as [a|e]; simpl; [|apply Hm].
  rewrite Hm. apply Hk.
Qed.

Lemma get_config_opt_run section opt c :
  get_config_opt X section opt c =
  mkRun c [] (get_config_opt_value c section opt).
Proof.
  unfold get_config_opt, get_config_opt_value.
  rewrite bind_unfold. unfold config_has_option, reading at 1 2 3. simpl.
  destruct (ConfigParser.has_option c section opt); [|reflexivity].
  rewrite bind_unfold. unfold config_get, reading. simpl.
  destruct (ConfigParser.get c section opt); reflexivity.
Qed.

Lemma load_if_specified_events kind f time_avg c (ev : Event X) :
  ev ∈ events (load_if_specified X kind f time_avg c) ->
  exists f', f = Some f' /\
    ev = (CallObs kind f' time_avg, outcome_of (loader X kind f' time_avg)).
Proof.
  destruct f as [f'|]; simpl.
  - rewrite in_events_bind. intros [H|(a & _ & H)].
    + apply list_elem_of_singleton in H. exists f'.
      split; [reflexivity|exact H].
    + apply elem_of_nil in H. contradiction.
  - intros H. apply elem_of_nil in H. contradiction.
Qed.

Lemma load_if_specified_outcome kind f time_avg c obs :
  outcome (load_if_specified X kind f time_avg c) = Ok obs ->
  match f with
  | Some f' => exists o, loader X kind f' time_avg = Ok o /\ obs = Some o
  | None => obs = None
  end.
Proof.
  destruct f as [f'|]; simpl.
  - rewrite bind_unfold. unfold load_obs, calling. simpl.
    destruct (loader X kind f' time_avg) as [o|e]; simpl; [|discriminate].
    intros H. injection H as <-. exists o. split; reflexivity.
  - intros H. injection H as <-. reflexivity.
Qed.

Lemma preserves_get_config_opt section opt :
  preserves_config (get_config_opt X section opt).
Proof. intros c. rewrite get_config_opt_run. reflexivity. Qed.

Lemma preserves_load_if_specified kind f time_avg :
  preserves_config (load_if_specified X kind f time_avg).
Proof.
  destruct f; simpl; [|apply preserves_ret].
  apply preserves_bind; [apply preserves_calling | intros; apply preserves_ret].
Qed.

(** ** [call_plotdiag] *)

Ltac no_event H := apply elem_of_nil in H; contradiction.

Ltac after_read H :=
  apply in_events_bind in H; rewrite get_config_opt_run in H;
  cbn [events outcome config_after] in H;
  destruct H as [H | (? & ? & H)]; [no_event H|].

Ltac after_get H :=
  apply in_events_bind in H; unfold config_get at 1 2 3, reading at 1 2 3 in H;
  cbn [events outcome config_after] in H;
  destruct H as [H | (? & ? & H)]; [no_event H|].

(** Every call [call_plotdiag] makes is a loader called on the file its key
    names, with the [time_avg] read from the parser, or the reporter called
    with what the loaders returned. *)
Lemma call_plotdiag_events trans c (ev : Event X) :
  ev ∈ events (call_plotdiag X trans c) ->
  exists time_avg,
    get_config_opt_value c "observations" "time_avg" = Ok time_avg /\
    ((exists kind f,
        get_config_opt_value c "observations" (obs_key kind) = Ok (Some f) /\
        ev = (CallObs kind f time_avg, outcome_of (loader X kind f time_avg)))
     \/
     (exists (f : ObsKind -> option string)
             (obs : ObsKind -> option (ObservationSet X))
             outdir date_format name,
        (forall kind,
           get_config_opt_value c "observations" (obs_key kind) = Ok (f kind) /\
           outcome (load_if_specified X kind (f kind) time_avg c)
           = Ok (obs kind)) /\
        ConfigParser.get c "output" "outdir" = Ok outdir /\
        ConfigParser.get c "output" "date_format" = Ok date_format /\
        ConfigParser.get c "output" "name" = Ok name /\
        ev = (CallPlot trans name outdir date_format
                (obs VolumeTransport) (obs FloridaCurrent)
                (obs HeatTransport) (obs StreamFunction),
              outcome_of (plotdiag_plot_diagnostics X trans name outdir
                            date_format (obs VolumeTransport)
                            (obs FloridaCurrent) (obs HeatTransport)
                            (obs StreamFunction))))).
Proof.
  intros H. unfold call_plotdiag in H.
  after_read H. rename x into time_avg, H0 into Hta.
  after_read H. rename x into sf_f, H0 into Hsf.
  after_read H. rename x into fc_f, H0 into Hfc.
  after_read H. rename x into vol_f, H0 into Hvol.
  after_read H. rename x into oht_f, H0 into Hoht.
  exists time_avg. split; [exact Hta|].
  apply in_events_bind in H. destruct H as [H | (obs_oht & Hl1 & H)].
  { left. apply load_if_specified_events in H as (f' & -> & ->).
    exists HeatTransport, f'. split; [exact Hoht | reflexivity]. }
  rewrite preserves_load_if_specified in H.
  apply in_events_bind in H. destruct H as [H | (obs_fc & Hl2 & H)].
  { left. apply load_if_specified_events in H as (f' & -> & ->).
    exists FloridaCurrent, f'. split; [exact Hfc | reflexivity]. }
  rewrite preserves_load_if_specified in H.
  apply in_events_bind in H. destruct H as [H | (obs_sf & Hl3 & H)].
  { left. apply load_if_specified_events in H as (f' & -> & ->).
    exists StreamFunction, f'. split; [exact Hsf | reflexivity]. }
  rewrite preserves_load_if_specified in H.
  apply in_events_bind in H. destruct H as [H | (obs_vol & Hl4 & H)].
  { left. apply load_if_specified_events in H as (f' & -> & ->).
    exists VolumeTransport, f'. split; [exact Hvol | reflexivity]. }
  rewrite preserves_load_if_specified in H.
  after_get H. rename x into outdir, H0 into Hod.
  after_get H. rename x into date_format, H0 into Hdf.
  after_get H. rename x into name, H0 into Hname.
  unfold plot_diagnostics, calling in H. cbn [events] in H.
  apply list_elem_of_singleton in H.
  right.
  exists (fun kind => match kind with
                      | HeatTransport => oht_f | FloridaCurrent => fc_f
                      | StreamFunction => sf_f | VolumeTransport => vol_f end),
         (fun kind => match kind with
                      | HeatTransport => obs_oht | FloridaCurrent => obs_fc
                      | StreamFunction => obs_sf | VolumeTransport => obs_vol end),
         outdir, date_format, name.
  split; [intros []; split; assumption|].
  repeat split; assumption.
Qed.

Lemma get_config_opt_value_Some c section opt f :
  get_config_opt_value c section opt = Ok (Some f) ->
  ConfigParser.has_option c section opt = true /\
  ConfigParser.get c section opt = Ok f.
Proof.
  unfold get_config_opt_value.
  destruct (ConfigParser.has_option c section opt); [|discriminate].
  destruct (ConfigParser.get c section opt); simpl; [|discriminate].
  intros H. injection H as <-. split; reflexivity.
Qed.

Lemma get_config_opt_value_None c section opt :
  get_config_opt_value c section opt = Ok None ->
  ConfigParser.has_option c section opt = false.
Proof.
  unfold get_config_opt_value.
  destruct (ConfigParser.has_option c section opt); [|reflexivity].
  destruct (ConfigParser.get c section opt); simpl; discriminate.
Qed.

Lemma get_config_opt_value_absent c section opt :
  ConfigParser.has_option c section opt = false ->
  get_config_opt_value c section opt = Ok None.
Proof. unfold get_config_opt_value. intros ->. reflexivity. Qed.

Lemma has_option_no_section c section opt :
  ConfigParser.sections c !! section = None ->
  ConfigParser.is_default section = false ->
  ConfigParser.has_option c section opt = false.
Proof. unfold ConfigParser.has_option. intros -> ->. reflexivity. Qed.

(** A step that returns [a] without touching anything hands over to the rest. *)
Lemma bind_pure {A B} (m : M X A) (k : A -> M X B) c a :
  m c = mkRun c [] (Ok a) -> bind X m k c = k a c.
Proof.
  intros H. rewrite bind_unfold, H. simpl. destruct (k a c); reflexivity.
Qed.

Lemma call_plotdiag_unconfigured trans c time_avg :
  get_config_opt_value c "observations" "time_avg" = Ok time_avg ->
  (forall kind,
     ConfigParser.has_option c "observations" (obs_key kind) = false) ->
  call_plotdiag X trans c = plot_model_only X trans c.
Proof.
  intros Hta Hno. unfold call_plotdiag.
  rewrite (bind_pure _ _ c time_avg)
    by (rewrite get_config_opt_run, Hta; reflexivity).
  rewrite (bind_pure _ _ c None)
    by (rewrite get_config_opt_run,
          (get_config_opt_value_absent c "observations" "streamfunctions"
             (Hno StreamFunction));
        reflexivity).
  rewrite (bind_pure _ _ c None)
    by (rewrite get_config_opt_run,
          (get_config_opt_value_absent c "observations" "florida_current"
             (Hno FloridaCurrent));
        reflexivity).
  rewrite (bind_pure _ _ c None)
    by (rewrite get_config_opt_run,
          (get_config_opt_value_absent c "observations" "volume_transports"
             (Hno VolumeTransport));
        reflexivity).
  rewrite (bind_pure _ _ c None)
    by (rewrite get_config_opt_run,
          (get_config_opt_value_absent c "observations" "heat_transports"
             (Hno HeatTransport));
        reflexivity).
  do 4 (rewrite (bind_pure _ _ c None) by reflexivity).
  reflexivity.
Qed.

(** C1. For each of the four observation kinds, the reporter is handed an
    observation set exactly when the [observations] section has the entry
    naming its file, and it is then the one the kind's loader built from that
    file; when the entry is absent the reporter is handed [None].  A loader is
    called only for an entry that is there. *)
Theorem observations_passed_iff_configured trans c (call : Call X) o :
  (call, o) ∈ events (call_plotdiag X trans c) ->
  match call with
  | CallObs kind f _ =>
      ConfigParser.has_option c "observations" (obs_key kind) = true /\
      ConfigParser.get c "observations" (obs_key kind) = Ok f
  | CallPlot _ _ _ _ _ _ _ _ =>
      forall kind,
        match passed_for kind call with
        | Some (Some obs) =>
            ConfigParser.has_option c "observations" (obs_key kind) = true /\
            exists f time_avg,
              ConfigParser.get c "observations" (obs_key kind) = Ok f /\
              get_config_opt_value c "observations" "time_avg" = Ok time_avg /\
              loader X kind f time_avg = Ok obs
        | _ =>
            ConfigParser.has_option c "observations" (obs_key kind) = false
        end
  | _ => True
  end.
Proof.
  intros H. apply call_plotdiag_events in H as (time_avg & Hta & H).
  destruct H as [(kind & f & Hf & [= -> _])
                |(f & obs & outdir & df & name & Hk & _ & _ & _ & [= -> _])].
  - apply get_config_opt_value_Some in Hf. exact Hf.
  - intros kind. destruct (Hk kind) as [Hf Hl].
    apply load_if_specified_outcome in Hl.
    assert (passed_for kind
              (CallPlot trans name outdir df (obs VolumeTransport)
                 (obs FloridaCurrent) (obs HeatTransport) (obs StreamFunction))
            = Some (obs kind)) as -> by (destruct kind; reflexivity).
    destruct (f kind) as [f'|].
    + destruct Hl as (o' & Hload & ->).
      apply get_config_opt_value_Some in Hf as [Hhas Hget].
      split; [exact Hhas|]. exists f', time_avg. repeat split; assumption.
    + rewrite Hl. apply get_config_opt_value_None in Hf. exact Hf.
Qed.

(** C8. Every loader that is called is called with the [time_avg] of the
    [observations] section: the configured value, and [None] when the option
    is not configured. *)
Theorem loaders_share_time_avg trans c kind f time_avg o :
  (CallObs kind f time_avg, o) ∈ events (call_plotdiag X trans c) ->
  match time_avg with
  | Some value =>
      ConfigParser.has_option c "observations" "time_avg" = true /\
      ConfigParser.get c "observations" "time_avg" = Ok value
  | None => ConfigParser.has_option c "observations" "time_avg" = false
  end.
Proof.
  intros H. apply call_plotdiag_events in H as (time_avg' & Hta & H).
  destruct H as [(kind' & f' & _ & [= _ _ -> _])
                |(? & ? & ? & ? & ? & _ & _ & _ & _ & [=])].
  destruct time_avg' as [value|].
  - apply get_config_opt_value_Some in Hta. exact Hta.
  - apply get_config_opt_value_None in Hta. exact Hta.
Qed.

(** C10, as the code has it.  [get_config_opt] returns [None], and raises
    nothing, when [has_option] says the option is not there, which is the case
    when the section is one with a name of its own that the configuration does
    not have; so without an [observations] section [call_plotdiag] skips every
    loader and goes on to the reporter with no observation set, as it does for
    a configuration whose [observations] section has none of the four keys and
    a [time_avg] that is absent or can be read. *)
Theorem get_config_opt_total_on_missing trans c section opt :
  (ConfigParser.has_option c section opt = false ->
   get_config_opt X section opt c = mkRun c [] (Ok None)) /\
  (ConfigParser.sections c !! section = None ->
   ConfigParser.is_default section = false ->
   get_config_opt X section opt c = mkRun c [] (Ok None)) /\
  (ConfigParser.sections c !! "observations" = None ->
   call_plotdiag X trans c = plot_model_only X trans c) /\
  (forall time_avg,
     get_config_opt_value c "observations" "time_avg" = Ok time_avg ->
     (forall kind,
        ConfigParser.has_option c "observations" (obs_key kind) = false) ->
     call_plotdiag X trans c = plot_model_only X trans c).
Proof.
  repeat split.
  - intros H. rewrite get_config_opt_run, get_config_opt_value_absent by exact H.
    reflexivity.
  - intros Hs Hd.
    rewrite get_config_opt_run, get_config_opt_value_absent
      by (apply has_option_no_section; assumption).
    reflexivity.
  - intros Hs. apply (call_plotdiag_unconfigured trans c None).
    + apply get_config_opt_value_absent, has_option_no_section;
        [exact Hs | reflexivity].
    + intros kind. apply has_option_no_section; [exact Hs | reflexivity].
  - intros time_avg Hta Hno.
    exact (call_plotdiag_unconfigured trans c time_avg Hta Hno).
Qed.

(** ** [main] *)

Lemma main_stages args :
  main X args =
  bind X (override X "name" (name args)) (fun _ =>
  bind X (override X "outdir" (outdir args)) (fun _ => stages X args)).
Proof. reflexivity. Qed.

Lemma run_eta {A} (r : Run X A) :
  mkRun (config_after r) (events r) (outcome r) = r.
Proof. destruct r; reflexivity. Qed.

Lemma override_run opt value c :
  override X opt value c =
  match match value with
        | Some value => ConfigParser.set c "output" opt value
        | None => Ok c
        end with
  | Ok c' => mkRun c' [] (Ok tt)
  | Raise e => mkRun c [] (Raise e)
  end.
Proof. destruct value; reflexivity. Qed.

(** The overrides make no call: [main] is [stages] on the overridden parser
    object, or stops with the exception [set] raised. *)
Lemma main_overridden args c0 :
  main X args c0 =
  match overridden args c0 with
  | Ok c => stages X args c
  | Raise e =>
      mkRun match name args with
            | Some value =>
                match ConfigParser.set c0 "output" "name" value with
                | Ok c1 => c1
                | Raise _ => c0
                end
            | None => c0
            end [] (Raise e)
  end.
Proof.
  rewrite main_stages, bind_unfold, override_run. unfold overridden.
  destruct (match name args with
            | Some value => ConfigParser.set c0 "output" "name" value
            | None => Ok c0
            end) as [c1|e] eqn:E1; cbn [outcome events config_after rbind].
  - rewrite bind_unfold, override_run.
    destruct (match outdir args with
              | Some value => ConfigParser.set c1 "output" "outdir" value
              | None => Ok c1
              end) as [c2|e] eqn:E2; cbn [outcome events config_after app].
    + apply run_eta.
    + destruct (name args); [rewrite E1|injection E1 as ->]; reflexivity.
  - destruct (name args); [rewrite E1; reflexivity | discriminate].
Qed.

Ltac next_stage :=
  rewrite bind_unfold;
  cbn [ZonalSections interpolate calc_transports_from_sections calling
       outcome events config_after];
  match goal with
  | |- context [match ?r with Ok _ => _ | Raise _ => _ end] =>
      destruct r eqn:?
  end; cbn [outcome events config_after outcome_of app].

Ltac early_stop :=
  left; do 2 eexists; split; [reflexivity|];
  repeat (constructor;
          [split; [simpl; lia | intros ? [= <-]; reflexivity]|]);
  constructor.

Lemma stages_cases args c :
  (exists evs e,
     stages X args c = mkRun c evs (Raise e) /\
     Forall (fun ev : Event X => phase ev.1 < 2 /\ handed c ev.1) evs) \/
  (exists t s tau v t_on_v s_on_v,
     sections_ZonalSections X (tfile args) c "temperature" = Ok t /\
     sections_ZonalSections X (sfile args) c "salinity" = Ok s /\
     sections_ZonalSections X (taufile args) c "taux" = Ok tau /\
     sections_ZonalSections X (vfile args) c "meridional_velocity" = Ok v /\
     sections_interpolate X t v = Ok t_on_v /\
     sections_interpolate X s v = Ok s_on_v /\
     let r := transports_calc_transports_from_sections X c v tau
                t_on_v s_on_v in
     stages X args c =
     mkRun (config_after (after_calc X r c))
       (loading X args c t s tau v t_on_v s_on_v ++
        (CallCalcTransports c v tau t_on_v s_on_v, outcome_of r)
        :: events (after_calc X r c))
       (outcome (after_calc X r c))).
Proof.
  unfold stages.
  next_stage; [|early_stop].
  next_stage; [|early_stop].
  next_stage; [|early_stop].
  next_stage; [|early_stop].
  next_stage; [|early_stop].
  next_stage; [|early_stop].
  right. do 6 eexists.
  repeat (split; [first [reflexivity | eassumption]|]).
  cbn zeta. rewrite bind_unfold.
  cbn [calc_transports_from_sections calling outcome events config_after].
  destruct (transports_calc_transports_from_sections X c _ _ _ _);
    reflexivity.
Qed.

Lemma preserves_call_plotdiag trans : preserves_config (call_plotdiag X trans).
Proof.
  unfold call_plotdiag.
  repeat first
    [ apply preserves_get_config_opt
    | apply preserves_load_if_specified
    | apply preserves_bind; [|intros ?]
    | (intros ?; reflexivity) ].
Qed.

Lemma save_run trans c :
  save X trans c =
  match trans_filepath X trans with
  | Ok path =>
      mkRun c [(CallFilepath trans, Returned);
               (CallPrint ("SAVING: " +:+ path), Returned);
               (CallClose trans, outcome_of (trans_close X trans))]
            (trans_close X trans)
  | Raise e => mkRun c [(CallFilepath trans, Raised e)] (Raise e)
  end.
Proof.
  unfold save, bind, filepath, print, close, calling.
  cbn [outcome events config_after].
  destruct (trans_filepath X trans) as [path|e]; reflexivity.
Qed.

Lemma finish_run trans c :
  finish X trans c =
  match ConfigParser.getboolean c "output" "plot" with
  | Ok true =>
      match outcome (call_plotdiag X trans c) with
      | Ok _ =>
          mkRun c (events (call_plotdiag X trans c) ++ events (save X trans c))
                (outcome (save X trans c))
      | Raise e => mkRun c (events (call_plotdiag X trans c)) (Raise e)
      end
  | Ok false => save X trans c
  | Raise e => mkRun c [] (Raise e)
  end.
Proof.
  unfold finish. rewrite bind_unfold.
  unfold config_getboolean, reading.
  cbn [outcome events config_after].
  destruct (ConfigParser.getboolean c "output" "plot") as [[|]|e];
    [| |reflexivity]; cbn zeta; rewrite bind_unfold.
  - rewrite preserves_call_plotdiag.
    destruct (outcome (call_plotdiag X trans c)); cbn zeta; cbn [app].
    + f_equal. rewrite save_run. destruct (trans_filepath X trans); reflexivity.
    + reflexivity.
  - cbn [ret outcome events config_after app]. apply run_eta.
Qed.

Lemma call_plotdiag_phase trans c (ev : Event X) :
  ev ∈ events (call_plotdiag X trans c) -> phase ev.1 = 3 \/ phase ev.1 = 4.
Proof.
  intros H. apply call_plotdiag_events in H as (time_avg & _ & H).
  destruct H as [(kind & f & _ & ->)|(f & obs & ? & ? & ? & _ & _ & _ & _ & ->)].
  - left. reflexivity.
  - right. reflexivity.
Qed.

Lemma save_phase trans c :
  Forall (fun ev : Event X => phase ev.1 = 5) (events (save X trans c)).
Proof.
  rewrite save_run. destruct (trans_filepath X trans); repeat constructor.
Qed.

(** After the transport computation only loaders, the reporter and the save
    step are called. *)
Lemma after_calc_phase r c :
  Forall (fun ev : Event X => 3 <= phase ev.1) (events (after_calc X r c)).
Proof.
  destruct r as [trans|e]; [|constructor]. cbn [after_calc].
  assert (Forall (fun ev : Event X => 3 <= phase ev.1)
            (events (call_plotdiag X trans c))) as Hplot.
  { apply Forall_forall. intros ev H.
    apply call_plotdiag_phase in H as [-> | ->]; lia. }
  assert (Forall (fun ev : Event X => 3 <= phase ev.1)
            (events (save X trans c))) as Hsave.
  { eapply Forall_impl; [apply save_phase|]. intros ev ->. lia. }
  rewrite finish_run.
  destruct (ConfigParser.getboolean c "output" "plot") as [[|]|e].
  - destruct (outcome (call_plotdiag X trans c)); cbn [events];
      [apply Forall_app; split|]; assumption.
  - exact Hsave.
  - constructor.
Qed.

(** ** Invariants of the run *)

Lemma fails_fast_silent {A} (m : M X A) :
  (forall c, events (m c) = []) -> fails_fast m.
Proof. intros H c i call e. rewrite H, lookup_nil. discriminate. Qed.

Lemma fails_fast_calling {A} call (f : ConfigParser.t -> result A) :
  fails_fast (calling X call f).
Proof.
  intros c [|i] call' e; cbn [calling events outcome]; [|discriminate].
  destruct (f c); simpl; intros [= _ ->]. split; reflexivity.
Qed.

Lemma fails_fast_bind {A B} (m : M X A) (k : A -> M X B) :
  fails_fast m -> (forall a, fails_fast (k a)) -> fails_fast (bind X m k).
Proof.
  intros Hm Hk c i call e. rewrite bind_unfold.
  destruct (outcome (m c)) as [a|e0] eqn:E; cbn [events outcome config_after].
  - intros H. apply lookup_app_Some in H as [H|[Hle H]].
    + apply Hm in H as [H _]. congruence.
    + apply Hk in H as [H1 H2]. split; [exact H1|].
      rewrite length_app, H2. unfold Event in *. lia.
  - intros H. destruct (Hm _ _ _ _ H) as [H1 H2]. split; congruence.
Qed.

Ltac fails_fast_steps :=
  repeat first
    [ apply fails_fast_calling
    | (apply fails_fast_silent; intros ?; reflexivity)
    | apply fails_fast_bind; [|intros ?]
    | match goal with
      | |- fails_fast (if ?b then _ else _) => destruct b
      | |- fails_fast (match ?o with Some _ => _ | None => _ end) => destruct o
      end ].

Lemma fails_fast_override opt value : fails_fast (override X opt value).
Proof.
  apply fails_fast_silent. intros c. rewrite override_run.
  destruct (match value with Some _ => _ | None => _ end); reflexivity.
Qed.

Lemma fails_fast_call_plotdiag trans : fails_fast (call_plotdiag X trans).
Proof.
  unfold call_plotdiag, get_config_opt, load_if_specified. fails_fast_steps.
Qed.

Lemma fails_fast_main args : fails_fast (main X args).
Proof.
  unfold main.
  apply fails_fast_bind; [apply fails_fast_override|intros _].
  apply fails_fast_bind; [apply fails_fast_override|intros _].
  repeat first
    [ apply fails_fast_calling
    | apply fails_fast_call_plotdiag
    | (apply fails_fast_silent; intros ?; reflexivity)
    | apply fails_fast_bind; [|intros ?]
    | match goal with
      | |- fails_fast (if ?b then _ else _) => destruct b
      end ].
Qed.

Lemma closed_app (l1 l2 : list (Event X)) :
  closed (l1 ++ l2) = closed l1 + closed l2.
Proof.
  induction l1 as [|[[] []] l1 IH]; simpl; rewrite ?IH; reflexivity.
Qed.

Lemma closed_before_save (l : list (Event X)) :
  Forall (fun ev : Event X => phase ev.1 < 5) l -> closed l = 0.
Proof.
  induction 1 as [|[[] []] l Hp _ IH]; simpl in *; try assumption; lia.
Qed.

Lemma closed_save trans c :
  closed (events (save X trans c)) =
  match outcome (save X trans c) with Ok _ => 1 | Raise _ => 0 end.
Proof.
  rewrite save_run. destruct (trans_filepath X trans); [|reflexivity].
  cbn [events outcome]. destruct (trans_close X trans); reflexivity.
Qed.

Lemma call_plotdiag_before_save trans c :
  Forall (fun ev : Event X => phase ev.1 < 5) (events (call_plotdiag X trans c)).
Proof.
  apply Forall_forall. intros ev H.
  apply call_plotdiag_phase in H as [-> | ->]; lia.
Qed.

Lemma closed_after_calc r c :
  closed (events (after_calc X r c)) =
  match outcome (after_calc X r c) with Ok _ => 1 | Raise _ => 0 end.
Proof.
  destruct r as [trans|e]; [|reflexivity]. cbn [after_calc].
  rewrite finish_run.
  destruct (ConfigParser.getboolean c "output" "plot") as [[|]|e];
    [| apply closed_save | reflexivity].
  pose proof (closed_before_save _ (call_plotdiag_before_save trans c)) as H0.
  destruct (outcome (call_plotdiag X trans c)); cbn [events outcome].
  - rewrite closed_app, H0. apply closed_save.
  - exact H0.
Qed.

Lemma after_calc_config (r : result (TransportResult X)) c :
  config_after (after_calc X r c) = c.
Proof.
  destruct r as [trans|e]; [|reflexivity]. cbn [after_calc].
  rewrite finish_run.
  destruct (ConfigParser.getboolean c "output" "plot") as [[|]|e];
    [destruct (outcome (call_plotdiag X trans c)); reflexivity
    | rewrite save_run; destruct (trans_filepath X trans); reflexivity
    | reflexivity].
Qed.

(** The shape of every run of [main]: it stops before the transport
    computation, having only loaded and interpolated, or it is the six loading
    calls, the transport computation and what follows it, on the overridden
    parser object. *)
Lemma main_shape args c0 :
  (exists e,
     outcome (main X args c0) = Raise e /\
     Forall (fun ev : Event X => phase ev.1 < 2) (events (main X args c0)) /\
     forall c, overridden args c0 = Ok c ->
       config_after (main X args c0) = c /\
       Forall (fun ev : Event X => handed c ev.1) (events (main X args c0))) \/
  (exists c t s tau v t_on_v s_on_v,
     overridden args c0 = Ok c /\
     sections_ZonalSections X (tfile args) c "temperature" = Ok t /\
     sections_ZonalSections X (sfile args) c "salinity" = Ok s /\
     sections_ZonalSections X (taufile args) c "taux" = Ok tau /\
     sections_ZonalSections X (vfile args) c "meridional_velocity" = Ok v /\
     sections_interpolate X t v = Ok t_on_v /\
     sections_interpolate X s v = Ok s_on_v /\
     let r := transports_calc_transports_from_sections X c v tau
                t_on_v s_on_v in
     main X args c0 =
     mkRun c
       (loading X args c t s tau v t_on_v s_on_v ++
        (CallCalcTransports c v tau t_on_v s_on_v, outcome_of r)
        :: events (after_calc X r c))
       (outcome (after_calc X r c))).
Proof.
  rewrite main_overridden.
  destruct (overridden args c0) as [c|e] eqn:Hov.
  - destruct (stages_cases args c) as [(evs & e & -> & Hevs)|H].
    + left. exists e. split; [reflexivity|].
      split; [eapply Forall_impl; [exact Hevs | intros ev [H _]; exact H]|].
      intros c' [= <-]. split; [reflexivity|].
      eapply Forall_impl; [exact Hevs | intros ev [_ H]; exact H].
    + right. destruct H as (t & s & tau & v & t_on_v & s_on_v & H).
      exists c, t, s, tau, v, t_on_v, s_on_v.
      split; [reflexivity|]. cbn zeta in *.
      rewrite after_calc_config in H. exact H.
  - left. exists e. split; [reflexivity|]. split; [constructor|].
    intros c [=].
Qed.

(** ** When [call_plotdiag] returns *)

Lemma bind_returns {A B} (m : M X A) (k : A -> M X B) c b :
  outcome (bind X m k c) = Ok b ->
  exists a,
    outcome (m c) = Ok a /\
    outcome (k a (config_after (m c))) = Ok b /\
    events (bind X m k c)
    = (events (m c) ++ events (k a (config_after (m c))))%list.
Proof.
  rewrite bind_unfold. destruct (outcome (m c)) as [a|e]; [|discriminate].
  cbn [outcome events]. intros H. exists a. repeat split. exact H.
Qed.

Lemma load_if_specified_returns kind f time_avg c obs :
  outcome (load_if_specified X kind f time_avg c) = Ok obs ->
  events (load_if_specified X kind f time_avg c)
  = match f with
    | Some f' => [(CallObs kind f' time_avg, Returned)]
    | None => []
    end.
Proof.
  destruct f as [f'|]; [|reflexivity]. simpl.
  rewrite bind_unfold. unfold load_obs, calling. cbn [outcome events].
  destruct (loader X kind f' time_avg); [reflexivity | discriminate].
Qed.

(** The log of a run of [call_plotdiag] that returns. *)
Lemma call_plotdiag_returns_log trans c :
  outcome (call_plotdiag X trans c) = Ok tt ->
  exists time_avg (f : ObsKind -> option string)
         name outdir date_format obs_vol obs_fc obs_oht obs_sf,
    (forall kind,
       get_config_opt_value c "observations" (obs_key kind) = Ok (f kind)) /\
    events (call_plotdiag X trans c)
    = ((match f HeatTransport with
        | Some f' => [(CallObs HeatTransport f' time_avg, Returned)]
        | None => []
        end ++
        match f FloridaCurrent with
        | Some f' => [(CallObs FloridaCurrent f' time_avg, Returned)]
        | None => []
        end ++
        match f StreamFunction with
        | Some f' => [(CallObs StreamFunction f' time_avg, Returned)]
        | None => []
        end ++
        match f VolumeTransport with
        | Some f' => [(CallObs VolumeTransport f' time_avg, Returned)]
        | None => []
        end ++
        [(CallPlot trans name outdir date_format obs_vol obs_fc obs_oht obs_sf,
          Returned)]))%list.
Proof.
  intros H. unfold call_plotdiag in *.
  apply bind_returns in H as (time_avg & Hta & H & ->).
  rewrite get_config_opt_run in *. cbn [outcome events config_after app] in *.
  apply bind_returns in H as (sf_f & Hsf & H & ->).
  rewrite get_config_opt_run in *. cbn [outcome events config_after app] in *.
  apply bind_returns in H as (fc_f & Hfc & H & ->).
  rewrite get_config_opt_run in *. cbn [outcome events config_after app] in *.
  apply bind_returns in H as (vol_f & Hvol & H & ->).
  rewrite get_config_opt_run in *. cbn [outcome events config_after app] in *.
  apply bind_returns in H as (oht_f & Hoht & H & ->).
  rewrite get_config_opt_run in *. cbn [outcome events config_after app] in *.
  apply bind_returns in H as (obs_oht & Hl1 & H & ->).
  rewrite preserves_load_if_specified in *.
  rewrite (load_if_specified_returns _ _ _ _ _ Hl1).
  apply bind_returns in H as (obs_fc & Hl2 & H & ->).
  rewrite preserves_load_if_specified in *.
  rewrite (load_if_specified_returns _ _ _ _ _ Hl2).
  apply bind_returns in H as (obs_sf & Hl3 & H & ->).
  rewrite preserves_load_if_specified in *.
  rewrite (load_if_specified_returns _ _ _ _ _ Hl3).
  apply bind_returns in H as (obs_vol & Hl4 & H & ->).
  rewrite preserves_load_if_specified in *.
  rewrite (load_if_specified_returns _ _ _ _ _ Hl4).
  apply bind_returns in H as (outdir & _ & H & ->).
  cbn [config_get reading outcome events config_after app] in *.
  apply bind_returns in H as (date_format & _ & H & ->).
  cbn [config_get reading outcome events config_after app] in *.
  apply bind_returns in H as (name & _ & H & ->).
  cbn [config_get reading outcome events config_after app] in *.
  unfold plot_diagnostics, calling in *. cbn [outcome events] in *.
  rewrite H. cbn [outcome_of].
  exists time_avg,
         (fun kind => match kind with
                      | HeatTransport => oht_f | FloridaCurrent => fc_f
                      | StreamFunction => sf_f | VolumeTransport => vol_f
                      end),
         name, outdir, date_format, obs_vol, obs_fc, obs_oht, obs_sf.
  split; [intros []; assumption | reflexivity].
Qed.


(** ** The order of the calls in [main] *)

Lemma sorted_lookup {A} (R : A -> A -> Prop) (l : list A) i j a b :
  StronglySorted R l -> i < j ->
  l !! i = Some a -> l !! j = Some b -> R a b.
Proof.
  intros Hs. revert i j. induction Hs as [|x l Hs IH Hx]; intros i j Hij Hi Hj.
  - rewrite lookup_nil in Hi. discriminate.
  - destruct j as [|j]; [lia|]. simpl in Hj. destruct i as [|i]; simpl in Hi.
    + injection Hi as <-. rewrite Forall_forall in Hx. apply Hx.
      eapply list_elem_of_lookup_2. exact Hj.
    + apply (IH i j); [lia | assumption..].
Qed.

Lemma phased_silent lo hi {A} (m : M X A) :
  (forall c, events (m c) = []) -> phased lo hi m.
Proof. intros H c. rewrite H. split; constructor. Qed.

Lemma phased_calling lo hi {A} call (f : ConfigParser.t -> result A) :
  (forall c, lo <= phase (call c) <= hi) -> phased lo hi (calling X call f).
Proof.
  intros H c. cbn [calling events]. split.
  - repeat constructor.
  - constructor; [apply H | constructor].
Qed.

Lemma phased_bind lo mid hi {A B} (m : M X A) (k : A -> M X B) :
  lo <= mid -> mid <= hi ->
  phased lo mid m -> (forall a, phased mid hi (k a)) ->
  phased lo hi (bind X m k).
Proof.
  intros Hlo Hhi Hm Hk c. rewrite bind_unfold.
  destruct (Hm c) as [Hs1 Hb1].
  assert (Forall (fun ev : Event X => lo <= phase ev.1 <= hi) (events (m c)))
    as Hb1' by (eapply Forall_impl; [exact Hb1 | intros ev H; simpl in *; lia]).
  destruct (outcome (m c)) as [a|e]; cbn [events]; [|split; assumption].
  destruct (Hk a (config_after (m c))) as [Hs2 Hb2]. split.
  - apply StronglySorted_app_2; [|assumption..].
    rewrite Forall_forall in Hb1, Hb2. intros x1 x2 H1 H2.
    specialize (Hb1 _ H1). specialize (Hb2 _ H2). simpl in *. lia.
  - apply Forall_app. split; [exact Hb1'|].
    eapply Forall_impl; [exact Hb2 | intros ev H; simpl in *; lia].
Qed.

Lemma phased_get_config_opt lo hi section opt :
  phased lo hi (get_config_opt X section opt).
Proof. apply phased_silent. intros c. rewrite get_config_opt_run. reflexivity. Qed.

Lemma phased_load lo hi kind f time_avg :
  lo <= 3 <= hi -> phased lo hi (load_if_specified X kind f time_avg).
Proof.
  intros H. destruct f as [f'|]; simpl.
  - apply (phased_bind lo hi hi); [lia | lia | |].
    + apply phased_calling. intros _. simpl. exact H.
    + intros obs. apply phased_silent. reflexivity.
  - apply phased_silent. reflexivity.
Qed.

Lemma phased_call_plotdiag trans : phased 2 4 (call_plotdiag X trans).
Proof.
  unfold call_plotdiag.
  do 5 (apply (phased_bind 2 2 4);
        [lia | lia | apply phased_get_config_opt | intros ?]).
  apply (phased_bind 2 3 4);
    [lia | lia | apply phased_load; lia | intros ?].
  do 3 (apply (phased_bind 3 3 4);
        [lia | lia | apply phased_load; lia | intros ?]).
  do 3 (apply (phased_bind 3 3 4);
        [lia | lia | apply phased_silent; reflexivity | intros ?]).
  apply phased_calling. intros _. simpl. lia.
Qed.

Lemma phased_override lo hi opt value : phased lo hi (override X opt value).
Proof.
  apply phased_silent. intros c. rewrite override_run.
  destruct (match value with Some _ => _ | None => _ end); reflexivity.
Qed.

(** The calls of [main] come in the order of the pipeline. *)
Lemma phased_main args : phased 0 5 (main X args).
Proof.
  unfold main.
  do 2 (apply (phased_bind 0 0 5);
        [lia | lia | apply phased_override | intros _]).
  do 4 (apply (phased_bind 0 0 5);
        [lia | lia | apply phased_calling; intros; simpl; lia | intros ?]).
  apply (phased_bind 0 1 5);
    [lia | lia | apply phased_calling; intros; simpl; lia | intros ?].
  apply (phased_bind 1 1 5);
    [lia | lia | apply phased_calling; intros; simpl; lia | intros ?].
  apply (phased_bind 1 2 5);
    [lia | lia | apply phased_calling; intros; simpl; lia | intros ?].
  apply (phased_bind 2 2 5);
    [lia | lia | apply phased_silent; reflexivity | intros plot].
  apply (phased_bind 2 4 5); [lia | lia | | intros _].
  { destruct plot; [apply phased_call_plotdiag|].
    apply phased_silent. reflexivity. }
  apply (phased_bind 4 5 5);
    [lia | lia | apply phased_calling; intros; simpl; lia | intros ?].
  apply (phased_bind 5 5 5);
    [lia | lia | apply phased_calling; intros; simpl; lia | intros ?].
  apply phased_calling. intros; simpl; lia.
Qed.

(** ** The claims about [main] *)

Lemma loading_phase args c t s tau v t_on_v s_on_v :
  Forall (fun ev : Event X => phase ev.1 < 2 /\ ev.2 = Returned /\ handed c ev.1)
         (loading X args c t s tau v t_on_v s_on_v).
Proof.
  repeat (constructor;
          [split; [simpl; lia
                  |split; [reflexivity | intros ? [= <-]; reflexivity]]|]).
  constructor.
Qed.

(** C2. As soon as the log of a run holds the transport computation or
    anything later, it starts with the four sections loaded in the order
    temperature, salinity, wind stress, velocity, then temperature and
    salinity interpolated onto the velocity section, then
    [calc_transports_from_sections(config, v, tau, t_on_v, s_on_v)]; loaders,
    reporter and save step come only after these seven calls. *)
Theorem pipeline_order args c0 i (call : Call X) o :
  events (main X args c0) !! i = Some (call, o) ->
  2 <= phase call ->
  exists c t s tau v t_on_v s_on_v rest,
    overridden args c0 = Ok c /\
    sections_ZonalSections X (tfile args) c "temperature" = Ok t /\
    sections_ZonalSections X (sfile args) c "salinity" = Ok s /\
    sections_ZonalSections X (taufile args) c "taux" = Ok tau /\
    sections_ZonalSections X (vfile args) c "meridional_velocity" = Ok v /\
    sections_interpolate X t v = Ok t_on_v /\
    sections_interpolate X s v = Ok s_on_v /\
    events (main X args c0) =
      (loading X args c t s tau v t_on_v s_on_v ++
       (CallCalcTransports c v tau t_on_v s_on_v,
        outcome_of (transports_calc_transports_from_sections X c v tau
                      t_on_v s_on_v)) :: rest)%list /\
    Forall (fun ev : Event X => 3 <= phase ev.1) rest /\
    6 <= i.
Proof.
  intros Hi Hph.
  destruct (main_shape args c0)
    as [(e & _ & Hearly & _)
       |(c & t & s & tau & v & t_on_v & s_on_v & Hov & Ht & Hs & Htau & Hv
         & Htv & Hsv & Hrun)].
  - rewrite Forall_lookup in Hearly. specialize (Hearly i _ Hi).
    simpl in Hearly. lia.
  - cbn zeta in Hrun. rewrite Hrun in Hi |- *. cbn [events] in *.
    exists c, t, s, tau, v, t_on_v, s_on_v. eexists.
    repeat (split; [first [assumption | reflexivity]|]).
    split; [apply after_calc_phase|].
    destruct (decide (i < 6)) as [Hlt|]; [|lia].
    rewrite lookup_app_l in Hi by (simpl; lia).
    pose proof (loading_phase args c t s tau v t_on_v s_on_v) as Hl.
    rewrite Forall_lookup in Hl. specialize (Hl i _ Hi) as [Hl _].
    simpl in Hl. lia.
Qed.


(** C5, as the code has it.  A call that raises is the last call of the
    run and its exception is the outcome of [main]: every earlier call has
    returned, nothing runs after the failure, nothing is retried or recovered,
    and the result is never closed.  Every call of the run belongs to the
    failing stage or to an earlier one; so when a stage before the reporter
    fails, neither the reporter nor the save step is entered and no output
    file is written. *)
Theorem failure_stops_the_run args c0 i (call : Call X) e :
  events (main X args c0) !! i = Some (call, Raised e) ->
  outcome (main X args c0) = Raise e /\
  length (events (main X args c0)) = S i /\
  closed (events (main X args c0)) = 0 /\
  (forall j ev, j < i -> events (main X args c0) !! j = Some ev ->
                ev.2 = Returned) /\
  Forall (fun ev : Event X => phase ev.1 <= phase call)
         (events (main X args c0)) /\
  (phase call < 4 ->
   Forall (fun ev : Event X => may_write ev.1 = false)
          (events (main X args c0))).
Proof.
  intros Hi. destruct (fails_fast_main args c0 i call e Hi) as [Hout Hlen].
  assert (Forall (fun ev : Event X => phase ev.1 <= phase call)
            (events (main X args c0))) as Hph.
  { destruct (phased_main args c0) as [Hs _].
    apply Forall_lookup. intros j ev Hj.
    assert (j < S i) as Hlt
      by (rewrite <- Hlen; eapply lookup_lt_Some; exact Hj).
    destruct (decide (j = i)) as [->|Hne].
    - unfold Event in *. rewrite Hi in Hj. injection Hj as <-. simpl. lia.
    - apply (sorted_lookup _ _ j i ev (call, Raised e) Hs);
        [lia | exact Hj | exact Hi]. }
  split; [exact Hout|]. split; [exact Hlen|]. split; [|split; [|split]].
  - destruct (main_shape args c0)
      as [(e' & _ & Hearly & _)|(c & t & s & tau & v & t_on_v & s_on_v & _ & _
                                 & _ & _ & _ & _ & _ & Hrun)].
    + apply closed_before_save.
      eapply Forall_impl; [exact Hearly|]. intros ev H. simpl in *. lia.
    + cbn zeta in Hrun. rewrite Hrun in Hout |- *. cbn [events outcome] in *.
      rewrite closed_app. cbn [closed]. rewrite closed_after_calc, Hout.
      rewrite (closed_before_save (loading X args c t s tau v t_on_v s_on_v)).
      * reflexivity.
      * eapply Forall_impl; [apply loading_phase|]. intros ev [H _]. lia.
  - intros j [call' [|e']] Hj Hev; [reflexivity|].
    apply fails_fast_main in Hev as [_ Hlen']. unfold Event in *. lia.
  - exact Hph.
  - intros Hlt. eapply Forall_impl; [exact Hph|].
    intros [call' o'] H. simpl in *. destruct call'; simpl in *; try reflexivity; lia.
Qed.

(** C7. A run that ends well ends with the path of the result being asked
    for and printed, and the result being closed; the result is the one the
    transport computation returned, and nothing before these three calls
    touches the save step, so the result is closed once, last. *)
Theorem success_reports_path_then_closes args c0 :
  outcome (main X args c0) = Ok tt ->
  exists before c v tau t_on_v s_on_v trans path,
    events (main X args c0) =
      (before ++ [(CallFilepath trans, Returned);
                  (CallPrint ("SAVING: " +:+ path), Returned);
                  (CallClose trans, Returned)])%list /\
    (CallCalcTransports c v tau t_on_v s_on_v, Returned) ∈ before /\
    transports_calc_transports_from_sections X c v tau t_on_v s_on_v
    = Ok trans /\
    trans_filepath X trans = Ok path /\
    Forall (fun ev : Event X => phase ev.1 < 5) before.
Proof.
  intros Hok.
  destruct (main_shape args c0)
    as [(e & Hout & _)|(c & t & s & tau & v & t_on_v & s_on_v & _ & _
                        & _ & _ & _ & _ & _ & Hrun)]; [congruence|].
  cbn zeta in Hrun. rewrite Hrun in Hok |- *. cbn [events outcome] in *.
  destruct (transports_calc_transports_from_sections X c v tau t_on_v s_on_v)
    as [trans|e] eqn:Hcalc; [|discriminate].
  cbn [after_calc outcome_of] in *.
  assert (Forall (fun ev : Event X => phase ev.1 < 5)
            (loading X args c t s tau v t_on_v s_on_v ++
             [(CallCalcTransports c v tau t_on_v s_on_v, Returned)])%list)
    as Hpre.
  { apply Forall_app. split; [|repeat constructor].
    eapply Forall_impl; [apply loading_phase|]. intros ev [H _]. lia. }
  assert (forall tail path,
            trans_filepath X trans = Ok path ->
            Forall (fun ev : Event X => phase ev.1 < 5) tail ->
            exists before c' v' tau' t_on_v' s_on_v' trans' path',
              (loading X args c t s tau v t_on_v s_on_v ++
               (CallCalcTransports c v tau t_on_v s_on_v, Returned)
               :: tail ++ [(CallFilepath trans, Returned);
                           (CallPrint ("SAVING: " +:+ path), Returned);
                           (CallClose trans, Returned)])%list =
              (before ++ [(CallFilepath trans', Returned);
                          (CallPrint ("SAVING: " +:+ path'), Returned);
                          (CallClose trans', Returned)])%list /\
              (CallCalcTransports c' v' tau' t_on_v' s_on_v', Returned)
                ∈ before /\
              transports_calc_transports_from_sections X c' v' tau'
                t_on_v' s_on_v' = Ok trans' /\
              trans_filepath X trans' = Ok path' /\
              Forall (fun ev : Event X => phase ev.1 < 5) before) as Hend.
  { intros tail path Hpath Htail.
    exists ((loading X args c t s tau v t_on_v s_on_v ++
             [(CallCalcTransports c v tau t_on_v s_on_v, Returned)]) ++ tail)%list,
           c, v, tau, t_on_v, s_on_v, trans, path.
    split; [rewrite <- !app_assoc; reflexivity|].
    split; [rewrite !elem_of_app; left; right; apply list_elem_of_singleton;
            reflexivity|].
    split; [exact Hcalc|]. split; [exact Hpath|].
    apply Forall_app. split; assumption. }
  rewrite finish_run in Hok |- *. rewrite save_run in Hok |- *.
  destruct (ConfigParser.getboolean c "output" "plot") as [[|]|e];
    [| |discriminate].
  - destruct (outcome (call_plotdiag X trans c)); [|discriminate].
    destruct (trans_filepath X trans) as [path|e] eqn:Hpath; [|discriminate].
    cbn [events outcome] in *. rewrite Hok. cbn [outcome_of].
    apply Hend; [reflexivity | apply call_plotdiag_before_save].
  - destruct (trans_filepath X trans) as [path|e] eqn:Hpath; [|discriminate].
    cbn [events outcome] in *. rewrite Hok. cbn [outcome_of].
    apply (Hend [] path); [reflexivity | constructor].
Qed.

Lemma handed_later c (call : Call X) : 3 <= phase call -> handed c call.
Proof. destruct call; simpl; intros H c' [=]; lia. Qed.

(** Where an event of a run of [main] comes from. *)
Lemma main_events_in args c0 (ev : Event X) :
  ev ∈ events (main X args c0) ->
  exists c,
    overridden args c0 = Ok c /\
    ((phase ev.1 < 3 /\ handed c ev.1) \/
     (exists trans, ev ∈ events (finish X trans c))).
Proof.
  intros H.
  destruct (main_shape args c0)
    as [(e & _ & Hph & Hearly)
       |(c & t & s & tau & v & t_on_v & s_on_v & Hov & _ & _ & _ & _ & _ & _
         & Hrun)].
  - destruct (overridden args c0) as [c|e'] eqn:Hov.
    + exists c. split; [reflexivity|]. left.
      destruct (Hearly c eq_refl) as [_ Hh].
      rewrite Forall_forall in Hph, Hh. split; [|apply Hh; exact H].
      specialize (Hph _ H). simpl in Hph. lia.
    + rewrite main_overridden, Hov in H. cbn [events] in H.
      apply elem_of_nil in H. contradiction.
  - exists c. split; [exact Hov|]. cbn zeta in Hrun. rewrite Hrun in H.
    cbn [events] in H. apply elem_of_app in H as [H|H].
    + left. pose proof (loading_phase args c t s tau v t_on_v s_on_v) as Hl.
      rewrite Forall_forall in Hl. destruct (Hl _ H) as (Hp & _ & Hh).
      split; [lia | exact Hh].
    + apply elem_of_cons in H as [->|H].
      * left. split; [simpl; lia | intros c' [= <-]; reflexivity].
      * destruct (transports_calc_transports_from_sections X c v tau
                    t_on_v s_on_v) as [trans|e]; cbn [after_calc events] in H.
        -- right. exists trans. exact H.
        -- apply elem_of_nil in H. contradiction.
Qed.

Lemma finish_events_in trans c (ev : Event X) :
  ev ∈ events (finish X trans c) ->
  (ConfigParser.getboolean c "output" "plot" = Ok true /\
   ev ∈ events (call_plotdiag X trans c)) \/
  phase ev.1 = 5.
Proof.
  rewrite finish_run. pose proof (save_phase trans c) as Hsave.
  rewrite Forall_forall in Hsave.
  destruct (ConfigParser.getboolean c "output" "plot") as [[|]|e].
  - destruct (outcome (call_plotdiag X trans c)); cbn [events].
    + rewrite elem_of_app. intros [H|H]; [left; split; [reflexivity|exact H]|].
      right. apply Hsave. exact H.
    + intros H. left. split; [reflexivity|exact H].
  - intros H. right. apply Hsave. exact H.
  - cbn [events]. intros H. apply elem_of_nil in H. contradiction.
Qed.


(** Once the overrides are in, [main] and [call_plotdiag] make no change of
    their own to the parser object: no [set] follows, and every call that is
    handed the configuration is handed the overridden object. *)
Lemma configuration_kept_after_overrides args c0 c :
  overridden args c0 = Ok c ->
  config_after (main X args c0) = c /\
  Forall (fun ev : Event X => handed c ev.1) (events (main X args c0)) /\
  (forall trans, config_after (call_plotdiag X trans c) = c).
Proof.
  intros Hov.
  destruct (main_shape args c0)
    as [(e & _ & _ & Hearly)
       |(c' & t & s & tau & v & t_on_v & s_on_v & Hov' & _ & _ & _ & _ & _ & _
         & Hrun)].
  - destruct (Hearly c Hov) as [H1 H2].
    split; [exact H1|]. split; [exact H2|].
    intros trans. apply preserves_call_plotdiag.
  - assert (c' = c) as -> by congruence.
    cbn zeta in Hrun. rewrite Hrun. cbn [config_after events].
    split; [reflexivity|].
    split; [|intros trans; apply preserves_call_plotdiag].
    apply Forall_app. split.
    + eapply Forall_impl; [apply loading_phase|].
      intros ev (_ & _ & H). exact H.
    + constructor; [intros c' [= <-]; reflexivity|].
      eapply Forall_impl; [apply after_calc_phase|].
      intros ev H. apply handed_later. exact H.
Qed.

(** What the overrides leave in the parser object. *)
Lemma overridden_output args c0 c :
  overridden args c0 = Ok c ->
  match name args with
  | Some value =>
      has_percent value = false ->
      ConfigParser.get c "output" "name" = Ok value
  | None =>
      ConfigParser.get_raw c "output" "name"
      = ConfigParser.get_raw c0 "output" "name"
  end /\
  match outdir args with
  | Some value =>
      has_percent value = false ->
      ConfigParser.get c "output" "outdir" = Ok value
  | None =>
      ConfigParser.get_raw c "output" "outdir"
      = ConfigParser.get_raw c0 "output" "outdir"
  end /\
  (name args = None -> outdir args = None -> c = c0).
Proof.
  unfold overridden.
  assert ("outdir" <> "name" /\ "name" <> "outdir") as [Hne Hne']
    by (split; discriminate).
  destruct (name args) as [n|], (outdir args) as [d|]; simpl.
  - destruct (ConfigParser.set c0 "output" "name" n) as [c1|e] eqn:H1;
      simpl; [|discriminate].
    intros H2. split; [|split; [|discriminate]]; intros Hp.
    + apply get_plain; [|exact Hp].
      rewrite (get_raw_set_other c1 "output" "outdir" d c "name" eq_refl H2 Hne).
      apply (get_raw_set_same c0 "output" "name" n c1 eq_refl H1).
    + apply get_plain; [|exact Hp].
      apply (get_raw_set_same c1 "output" "outdir" d c eq_refl H2).
  - destruct (ConfigParser.set c0 "output" "name" n) as [c1|e] eqn:H1;
      simpl; [|discriminate].
    intros [= <-]. split; [|split; [|discriminate]].
    + intros Hp. apply get_plain; [|exact Hp].
      apply (get_raw_set_same c0 "output" "name" n c1 eq_refl H1).
    + apply (get_raw_set_other c0 "output" "name" n c1 "outdir" eq_refl H1 Hne').
  - intros H2. split; [|split; [|discriminate]].
    + apply (get_raw_set_other c0 "output" "outdir" d c "name" eq_refl H2 Hne).
    + intros Hp. apply get_plain; [|exact Hp].
      apply (get_raw_set_same c0 "output" "outdir" d c eq_refl H2).
  - intros [= <-]. repeat split; reflexivity.
Qed.

(** C3, as the code has it.  Every call of a run works with the output name
    and directory of the overridden parser object: it is handed that object,
    or, for the reporter, the values [get] returns on it.  There, an
    override that holds no [%] is the value [get] returns; an option that is
    not overridden keeps the value stored for it in the configuration file;
    and with no override at all the parser object is the file's. *)
Theorem overrides_take_precedence args c0 (call : Call X) o :
  (call, o) ∈ events (main X args c0) ->
  exists c,
    overridden args c0 = Ok c /\
    output_from c call /\
    match name args with
    | Some value =>
        has_percent value = false ->
        ConfigParser.get c "output" "name" = Ok value
    | None =>
        ConfigParser.get_raw c "output" "name"
        = ConfigParser.get_raw c0 "output" "name"
    end /\
    match outdir args with
    | Some value =>
        has_percent value = false ->
        ConfigParser.get c "output" "outdir" = Ok value
    | None =>
        ConfigParser.get_raw c "output" "outdir"
        = ConfigParser.get_raw c0 "output" "outdir"
    end /\
    (name args = None -> outdir args = None -> c = c0).
Proof.
  intros H. apply main_events_in in H as (c & Hov & H).
  exists c. split; [exact Hov|]. split; [|apply overridden_output; exact Hov].
  destruct H as [[Hp H]|(trans & H)].
  - destruct call; simpl in Hp |- *; try exact I; try lia;
      apply H; reflexivity.
  - apply finish_events_in in H as [[_ H]|H].
    + apply call_plotdiag_events in H as (time_avg & _ & H).
      destruct H as [(kind & f & _ & [= -> _])
                    |(f & obs & od & df & n & _ & Hod & _ & Hn & [= -> _])].
      * exact I.
      * split; assumption.
    + destruct call; try exact I; simpl in H; lia.
Qed.

End Facts.

(** * The claims on concrete runs *)

(** A run with two observation kinds configured, seen from [call_plotdiag]:
    the reporter gets the heat and volume transports and nothing else. *)
Lemma observations_passed_run :
  let call : Call (stub true) :=
    CallPlot (X:=stub true) "transports.nc" "run" "/out" "%Y%m%d"
             (Some "vol:vol.nc") None (Some "oht:oht.nc") None in
  (call, Returned)
    ∈ events (call_plotdiag (stub true) "transports.nc" (cfg_obs "yes")) /\
  ConfigParser.has_option (cfg_obs "yes") "observations" "florida_current"
  = false /\
  exists f time_avg,
    ConfigParser.get (cfg_obs "yes") "observations" "heat_transports" = Ok f /\
    get_config_opt_value (cfg_obs "yes") "observations" "time_avg"
    = Ok time_avg /\
    loader (stub true) HeatTransport f time_avg = Ok "oht:oht.nc".
Proof.
  cbv zeta.
  assert ((CallPlot (X:=stub true) "transports.nc" "run" "/out" "%Y%m%d"
             (Some "vol:vol.nc") None (Some "oht:oht.nc") None, Returned)
            ∈ events (call_plotdiag (stub true) "transports.nc" (cfg_obs "yes")))
    as Hin by (apply (list_elem_of_lookup_2 _ 2); vm_compute; reflexivity).
  split; [exact Hin|].
  pose proof (observations_passed_iff_configured _ _ _ _ Hin) as H.
  split; [exact (H FloridaCurrent) | exact (proj2 (H HeatTransport))].
Defined.

(** The loaders of that run are called with the configured [time_avg]. *)
Lemma loaders_share_time_avg_run :
  (CallObs (X:=stub true) VolumeTransport "vol.nc" (Some "monthly"), Returned)
    ∈ events (call_plotdiag (stub true) "transports.nc" (cfg_obs "yes")) /\
  ConfigParser.has_option (cfg_obs "yes") "observations" "time_avg" = true /\
  ConfigParser.get (cfg_obs "yes") "observations" "time_avg" = Ok "monthly".
Proof.
  assert ((CallObs (X:=stub true) VolumeTransport "vol.nc" (Some "monthly"),
           Returned)
            ∈ events (call_plotdiag (stub true) "transports.nc" (cfg_obs "yes")))
    as Hin by (apply (list_elem_of_lookup_2 _ 1); vm_compute; reflexivity).
  split; [exact Hin|].
  exact (loaders_share_time_avg _ _ _ _ _ _ Hin).
Defined.

(** Without an [observations] section nothing is looked up in vain and the
    reporter is called with the model alone. *)
Lemma no_observations_section_run :
  get_config_opt (stub true) "observations" "time_avg" (cfg_plain "yes")
  = mkRun (cfg_plain "yes") [] (Ok None) /\
  call_plotdiag (stub true) "transports.nc" (cfg_plain "yes")
  = plot_model_only (stub true) "transports.nc" (cfg_plain "yes").
Proof.
  destruct (get_config_opt_total_on_missing (X:=stub true) "transports.nc"
              (cfg_plain "yes") "observations" "time_avg")
    as (_ & H2 & H3 & _).
  split; [apply H2 | apply H3]; reflexivity.
Defined.

(** Where the lookup is not total, and where the two configurations part:
    for the section without a name, which is in no configuration, the option
    is found among the defaults and [get] raises; and with none of the four
    kinds configured but a [time_avg] that cannot be expanded,
    [call_plotdiag] raises before it calls anything, while without the
    section it goes on to the reporter. *)
Lemma get_config_opt_not_total_on_missing :
  (ConfigParser.sections cfg_defaults_only !! "" = None /\
   outcome (get_config_opt (stub true) "" "time_avg" cfg_defaults_only)
   = Raise (NoSectionError "")) /\
  ((ConfigParser.has_option cfg_time_avg_only "observations"
      "heat_transports" = false /\
    ConfigParser.has_option cfg_time_avg_only "observations"
      "florida_current" = false /\
    ConfigParser.has_option cfg_time_avg_only "observations"
      "streamfunctions" = false /\
    ConfigParser.has_option cfg_time_avg_only "observations"
      "volume_transports" = false) /\
   events (call_plotdiag (stub true) "transports.nc" cfg_time_avg_only) = [] /\
   outcome (call_plotdiag (stub true) "transports.nc" cfg_time_avg_only)
   = Raise (InterpolationMissingOptionError "time_avg" "observations"
              "nowhere") /\
   ConfigParser.sections (cfg_plain "yes") !! "observations" = None /\
   outcome (call_plotdiag (stub true) "transports.nc" (cfg_plain "yes"))
   = Ok tt).
Proof. vm_compute. repeat split; reflexivity. Qed.

(** The first loader call of a full run sits behind the seven calls of the
    pipeline. *)
Lemma pipeline_order_run :
  let r := main (stub true) (args_demo None None) (cfg_obs "yes") in
  events r !! 7
  = Some (CallObs (X:=stub true) HeatTransport "oht.nc" (Some "monthly"),
          Returned) /\
  exists c t s tau v t_on_v s_on_v rest,
    overridden (args_demo None None) (cfg_obs "yes") = Ok c /\
    sections_ZonalSections (stub true) "t.nc" c "temperature" = Ok t /\
    sections_ZonalSections (stub true) "s.nc" c "salinity" = Ok s /\
    sections_ZonalSections (stub true) "tau.nc" c "taux" = Ok tau /\
    sections_ZonalSections (stub true) "v.nc" c "meridional_velocity" = Ok v /\
    sections_interpolate (stub true) t v = Ok t_on_v /\
    sections_interpolate (stub true) s v = Ok s_on_v /\
    events r =
      (loading (stub true) (args_demo None None) c t s tau v t_on_v s_on_v ++
       (CallCalcTransports c v tau t_on_v s_on_v,
        outcome_of (transports_calc_transports_from_sections (stub true) c v
                      tau t_on_v s_on_v)) :: rest)%list /\
    Forall (fun ev : Event (stub true) => 3 <= phase ev.1) rest /\
    6 <= 7.
Proof.
  cbv zeta.
  assert (events (main (stub true) (args_demo None None) (cfg_obs "yes")) !! 7
          = Some (CallObs (X:=stub true) HeatTransport "oht.nc" (Some "monthly"),
          Returned))
    as Hi by (vm_compute; reflexivity).
  split; [exact Hi|].
  apply (pipeline_order (args_demo None None) (cfg_obs "yes") 7 _ _ Hi).
  simpl. lia.
Defined.

(** Both overrides given: the reporter is called with them. *)
Lemma overrides_take_precedence_run :
  let args := args_demo (Some "exp1") (Some "/over") in
  let call : Call (stub true) :=
    CallPlot (X:=stub true) "transports.nc" "exp1" "/over" "%Y%m%d"
             None None None None in
  (call, Returned) ∈ events (main (stub true) args (cfg_plain "yes")) /\
  exists c,
    overridden args (cfg_plain "yes") = Ok c /\
    output_from c call /\
    (has_percent "exp1" = false ->
     ConfigParser.get c "output" "name" = Ok "exp1") /\
    (has_percent "/over" = false ->
     ConfigParser.get c "output" "outdir" = Ok "/over") /\
    (Some "exp1" = None -> Some "/over" = None -> c = cfg_plain "yes").
Proof.
  cbv zeta.
  assert ((CallPlot (X:=stub true) "transports.nc" "exp1" "/over" "%Y%m%d"
             None None None None, Returned)
            ∈ events (main (stub true)
                        (args_demo (Some "exp1") (Some "/over"))
                        (cfg_plain "yes")))
    as Hin by (apply (list_elem_of_lookup_2 _ 7); vm_compute; reflexivity).
  split; [exact Hin|].
  exact (overrides_take_precedence _ _ _ _ Hin).
Defined.

(** An override with an escaped percent sign: the run ends well, and what
    the transport computation and the reporter work with is the unescaped text,
    not the override. *)
Lemma escaped_override_is_rewritten :
  let args := args_demo None (Some "/o%%ver") in
  let r := main (stub true) args (cfg_plain "yes") in
  outcome r = Ok tt /\
  rbind (overridden args (cfg_plain "yes"))
        (fun c => ConfigParser.get c "output" "outdir") = Ok "/o%ver" /\
  events r !! 7
  = Some (CallPlot (X:=stub true) "transports.nc" "run" "/o%ver" "%Y%m%d"
                   None None None None, Returned).
Proof. vm_compute. repeat split; reflexivity. Qed.


(** The temperature file cannot be loaded: the run is that one call, and
    nothing that writes has been entered. *)
Lemma failure_stops_the_run_at_loading :
  let args := {| config_file := "config.ini"; tfile := "missing.nc";
                 sfile := "s.nc"; taufile := "tau.nc"; vfile := "v.nc";
                 name := None; outdir := None |} in
  let r := main (stub true) args (cfg_obs "yes") in
  let call : Call (stub true) :=
    CallZonalSections (X:=stub true) "missing.nc" (cfg_obs "yes")
                      "temperature" in
  (events r !! 0 = Some (call, Raised (StageError "DataLoadError")) /\
   phase call < 4) /\
  outcome r = Raise (StageError "DataLoadError") /\
  length (events r) = 1 /\
  closed (events r) = 0 /\
  (forall j ev, j < 0 -> events r !! j = Some ev -> ev.2 = Returned) /\
  Forall (fun ev : Event (stub true) => phase ev.1 <= phase call) (events r) /\
  Forall (fun ev : Event (stub true) => may_write ev.1 = false) (events r).
Proof.
  cbv zeta.
  match goal with
  | |- (?hyp /\ ?lt) /\ _ =>
      assert hyp as Hi by (vm_compute; reflexivity);
      assert lt as Hlt by (simpl; lia)
  end.
  split; [split; [exact Hi | exact Hlt]|].
  destruct (failure_stops_the_run _ _ _ _ _ Hi) as (H1 & H2 & H3 & H4 & H5 & H6).
  repeat split; try assumption. exact (H6 Hlt).
Defined.

(** The reporter has returned and the result's [close] fails: a stage has
    raised, and the reporter, which writes, has run to its end. *)
Lemma reporter_output_left_when_close_fails :
  let r := main stub_close_fails (args_demo None None) (cfg_plain "yes") in
  ((fun ev : Event stub_close_fails => (phase ev.1, may_write ev.1, ev.2))
     <$> events r)
  = [(0, false, Returned); (0, false, Returned); (0, false, Returned);
     (0, false, Returned); (1, false, Returned); (1, false, Returned);
     (2, false, Returned); (4, true, Returned); (5, false, Returned);
     (5, false, Returned); (5, true, Raised (StageError "IOError"))] /\
  outcome r = Raise (StageError "IOError").
Proof. vm_compute. repeat split; reflexivity. Qed.


(** A full run ends with the path printed and the result closed. *)
Lemma success_reports_path_then_closes_run :
  let r := main (stub true) (args_demo None None) (cfg_obs "yes") in
  outcome r = Ok tt /\
  exists before c v tau t_on_v s_on_v trans path,
    events r =
      (before ++ [(CallFilepath trans, Returned);
                  (CallPrint ("SAVING: " +:+ path), Returned);
                  (CallClose trans, Returned)])%list /\
    (CallCalcTransports c v tau t_on_v s_on_v, Returned) ∈ before /\
    transports_calc_transports_from_sections (stub true) c v tau t_on_v s_on_v
    = Ok trans /\
    trans_filepath (stub true) trans = Ok path /\
    Forall (fun ev : Event (stub true) => phase ev.1 < 5) before.
Proof.
  cbv zeta.
  assert (outcome (main (stub true) (args_demo None None) (cfg_obs "yes"))
          = Ok tt) as Hok by (vm_compute; reflexivity).
  split; [exact Hok|].
  exact (success_reports_path_then_closes _ _ Hok).
Defined.

(** The parser object of a run without overrides is the file's throughout. *)
Lemma configuration_kept_run :
  let args := args_demo None None in
  let c := cfg_obs "yes" in
  overridden args c = Ok c /\
  config_after (main (stub true) args c) = c /\
  Forall (fun ev : Event (stub true) => handed c ev.1)
         (events (main (stub true) args c)) /\
  (forall trans, config_after (call_plotdiag (stub true) trans c) = c).
Proof.
  cbv zeta.
  assert (overridden (args_demo None None) (cfg_obs "yes")
          = Ok (cfg_obs "yes")) as Hov by reflexivity.
  split; [exact Hov|].
  exact (configuration_kept_after_overrides _ _ _ Hov).
Defined.

(** * More about the driver *)

(** ** What [get_config_opt] can raise *)

Lemma interpolate_loop_errors deeper option section map fuel rest e :
  (forall v e', deeper v = Raise e' -> is_interpolation_error e' = true) ->
  ConfigParser.interpolate_loop deeper option section map fuel rest = Raise e ->
  is_interpolation_error e = true.
Proof.
  intros Hd. revert rest e.
  induction fuel as [|fuel IH]; intros rest e; simpl; [discriminate|].
  destruct rest as [|a rest1]; [discriminate|].
  destruct (negb (Ascii.eqb a percent)).
  { destruct (ConfigParser.interpolate_loop deeper option section map fuel rest1)
      eqn:E; simpl; [discriminate|]. intros [= <-]. eapply IH. exact E. }
  destruct rest1 as [|b rest2]; [intros [= <-]; reflexivity|].
  destruct (Ascii.eqb b percent).
  { destruct (ConfigParser.interpolate_loop deeper option section map fuel rest2)
      eqn:E; simpl; [discriminate|]. intros [= <-]. eapply IH. exact E. }
  destruct (Ascii.eqb b "("%char); [|intros [= <-]; reflexivity].
  destruct (ConfigParser.keycre_match _) as [[name rest3]|];
    [|intros [= <-]; reflexivity].
  cbv zeta.
  destruct (map !! ConfigParser.optionxform name) as [v|];
    [|intros [= <-]; reflexivity].
  destruct (if has_percent v then deeper v else Ok v) as [hd|e'] eqn:Ev; simpl.
  - destruct (ConfigParser.interpolate_loop deeper option section map fuel rest3)
      eqn:E; simpl; [discriminate|]. intros [= <-]. eapply IH. exact E.
  - intros [= <-]. destruct (has_percent v); [|discriminate].
    eapply Hd. exact Ev.
Qed.

Lemma interpolate_some_errors depth option section map rest e :
  ConfigParser.interpolate_some depth option section map rest = Raise e ->
  is_interpolation_error e = true.
Proof.
  revert rest e. induction depth as [|depth IH]; intros rest e; simpl.
  - intros [= <-]. reflexivity.
  - apply interpolate_loop_errors. exact IH.
Qed.

(** Where [has_option] says yes, the raw lookup of [get] finds a value. *)
Lemma has_option_get_raw c section option :
  section <> "" ->
  ConfigParser.has_option c section option = true ->
  exists value, ConfigParser.get_raw c section option = Ok value.
Proof.
  intros Hne. unfold ConfigParser.has_option, ConfigParser.get_raw,
    ConfigParser.unify_values, ConfigParser.is_default.
  destruct (String.eqb_spec section ""); [contradiction|]. simpl.
  destruct (String.eqb section ConfigParser.default_section).
  - rewrite bool_decide_eq_true. intros [v Hv].
    destruct (ConfigParser.sections c !! section) as [d|]; simpl.
    + rewrite lookup_union, Hv. destruct (d !! _); eexists; reflexivity.
    + rewrite Hv. eexists; reflexivity.
  - destruct (ConfigParser.sections c !! section) as [d|]; [|discriminate].
    simpl. rewrite orb_true_iff, !bool_decide_eq_true.
    rewrite lookup_union. intros [[v Hv]|[v Hv]]; rewrite Hv.
    + destruct (ConfigParser.defaults c !! _); eexists; reflexivity.
    + destruct (d !! _); eexists; reflexivity.
Qed.

Lemma get_config_opt_value_raises c section opt e :
  section <> "" ->
  get_config_opt_value c section opt = Raise e ->
  is_interpolation_error e = true.
Proof.
  intros Hne. unfold get_config_opt_value.
  destruct (ConfigParser.has_option c section opt) eqn:Hhas; [|discriminate].
  destruct (has_option_get_raw c section opt Hne Hhas) as [value Hraw].
  revert Hraw. unfold ConfigParser.get_raw, ConfigParser.get.
  destruct (ConfigParser.unify_values c section) as [d|]; simpl; [|discriminate].
  destruct (d !! ConfigParser.optionxform opt) as [v|]; [|discriminate].
  intros _. unfold ConfigParser.before_get.
  destruct (ConfigParser.interpolate_some _ _ _ _ _) eqn:E; simpl;
    [discriminate|].
  intros [= <-]. eapply interpolate_some_errors. exact E.
Qed.

(** ** What [set] does to the parser *)

Lemma set_raises c option value e :
  ConfigParser.set c "output" option value = Raise e ->
  e = NoSectionError "output" \/
  (exists position, e = InvalidInterpolationSyntax value position) /\
  ConfigParser.before_set value = Raise e.
Proof.
  unfold ConfigParser.set.
  destruct (String.eqb value "").
  - simpl. destruct (ConfigParser.sections c !! "output"); [discriminate|].
    intros [= <-]. left. reflexivity.
  - destruct (ConfigParser.before_set value) as [v|e'] eqn:Hb; simpl.
    + destruct (ConfigParser.sections c !! "output"); [discriminate|].
      intros [= <-]. left. reflexivity.
    + intros [= <-]. right. split; [|reflexivity].
      revert Hb. unfold ConfigParser.before_set.
      destruct (has_percent _); [|discriminate].
      intros [= <-]. eexists. reflexivity.
Qed.

Lemma set_needs_section c option value :
  ConfigParser.sections c !! "output" = None ->
  exists e, ConfigParser.set c "output" option value = Raise e.
Proof.
  intros Hs. unfold ConfigParser.set.
  destruct (if String.eqb value "" then Ok value
            else ConfigParser.before_set value); simpl.
  - rewrite Hs. eexists; reflexivity.
  - eexists; reflexivity.
Qed.

Lemma set_frame c option value c' section :
  ConfigParser.set c "output" option value = Ok c' ->
  section <> "output" ->
  ConfigParser.defaults c' = ConfigParser.defaults c /\
  ConfigParser.sections c' !! section = ConfigParser.sections c !! section.
Proof.
  intros Hset Hne. apply set_ok in Hset as (d & _ & ->); [|reflexivity].
  split; [reflexivity|]. simpl. apply lookup_insert_ne. congruence.
Qed.

Lemma overridden_frame args c0 c section :
  overridden args c0 = Ok c ->
  section <> "output" ->
  ConfigParser.defaults c = ConfigParser.defaults c0 /\
  ConfigParser.sections c !! section = ConfigParser.sections c0 !! section.
Proof.
  unfold overridden. intros H Hne.
  destruct (name args) as [n|]; simpl in H.
  - destruct (ConfigParser.set c0 "output" "name" n) as [c1|] eqn:H1;
      simpl in H; [|discriminate].
    destruct (set_frame _ _ _ _ section H1 Hne) as [Hd1 Hs1].
    destruct (outdir args) as [d|].
    + destruct (set_frame _ _ _ _ section H Hne) as [Hd2 Hs2].
      split; congruence.
    + injection H as <-. split; assumption.
  - destruct (outdir args) as [d|].
    + exact (set_frame _ _ _ _ section H Hne).
    + injection H as <-. split; reflexivity.
Qed.

(** What the parser answers about a section rests on that section's
    dictionary and the defaults. *)
Lemma same_section c c' section option :
  ConfigParser.defaults c' = ConfigParser.defaults c ->
  ConfigParser.sections c' !! section = ConfigParser.sections c !! section ->
  ConfigParser.has_option c' section option
  = ConfigParser.has_option c section option /\
  ConfigParser.get c' section option = ConfigParser.get c section option.
Proof.
  intros Hd Hs.
  unfold ConfigParser.has_option, ConfigParser.get, ConfigParser.unify_values.
  rewrite Hd, Hs. split; reflexivity.
Qed.

Section More.

Context {X : Collaborators}.

(** X1. Behind its [has_option] guard, [get_config_opt] raises neither
    [NoSectionError] nor [NoOptionError] for a section with a name: what it can
    raise is an interpolation error of the value it found. *)
Theorem get_config_opt_raises_interpolation_only c section opt e :
  section <> "" ->
  outcome (get_config_opt X section opt c) = Raise e ->
  is_interpolation_error e = true.
Proof.
  intros Hne. rewrite get_config_opt_run. cbn [outcome].
  apply get_config_opt_value_raises. exact Hne.
Qed.


(** X3. The command-line overrides touch the [output] section only: in every
    other section, and in the defaults, the parser answers [has_option], [get]
    and [get_config_opt] as it did before them. *)
Theorem overrides_leave_other_sections args c0 c section opt :
  overridden args c0 = Ok c ->
  section <> "output" ->
  ConfigParser.defaults c = ConfigParser.defaults c0 /\
  ConfigParser.has_option c section opt
  = ConfigParser.has_option c0 section opt /\
  ConfigParser.get c section opt = ConfigParser.get c0 section opt /\
  outcome (get_config_opt X section opt c)
  = outcome (get_config_opt X section opt c0).
Proof.
  intros Hov Hne.
  destruct (overridden_frame args c0 c section Hov Hne) as [Hd Hs].
  destruct (same_section c0 c section opt Hd Hs) as [Hhas Hget].
  split; [exact Hd|]. split; [exact Hhas|]. split; [exact Hget|].
  rewrite !get_config_opt_run. cbn [outcome]. unfold get_config_opt_value.
  rewrite Hhas, Hget. reflexivity.
Qed.

(** X4. An override the parser rejects stops [main] before any file is
    loaded: no call is made, and the exception is [NoSectionError] for the
    [output] section, or the [ValueError] that [before_set] raises on the
    value of that override, which names the value and the place of the stray
    percent sign. *)
Theorem rejected_override_stops_before_loading args c0 e :
  overridden args c0 = Raise e ->
  events (main X args c0) = [] /\
  outcome (main X args c0) = Raise e /\
  (e = NoSectionError "output" \/
   exists value,
     (name args = Some value \/ outdir args = Some value) /\
     (exists position, e = InvalidInterpolationSyntax value position) /\
     ConfigParser.before_set value = Raise e).
Proof.
  intros Hov. rewrite main_overridden, Hov. cbn [events outcome].
  split; [reflexivity|]. split; [reflexivity|].
  revert Hov. unfold overridden.
  destruct (name args) as [n|]; simpl.
  - destruct (ConfigParser.set c0 "output" "name" n) as [c1|e1] eqn:H1; simpl.
    + destruct (outdir args) as [d|]; [|discriminate].
      intros H2. apply set_raises in H2 as [->|H2]; [left; reflexivity|].
      right. exists d. split; [right; reflexivity | exact H2].
    + intros [= <-]. apply set_raises in H1 as [->|H1]; [left; reflexivity|].
      right. exists n. split; [left; reflexivity | exact H1].
  - destruct (outdir args) as [d|]; [|discriminate].
    intros H2. apply set_raises in H2 as [->|H2]; [left; reflexivity|].
    right. exists d. split; [right; reflexivity | exact H2].
Qed.

(** X5. On a parser without an [output] section [main] never ends well and
    never closes anything; when the transport computation has returned all
    the same, no override was given, the run stops right after that seventh
    call and the exception is [NoSectionError] for [output]. *)
Theorem no_output_section_never_succeeds args c0 :
  ConfigParser.sections c0 !! "output" = None ->
  exists e,
    outcome (main X args c0) = Raise e /\
    closed (events (main X args c0)) = 0 /\
    forall c v tau t_on_v s_on_v,
      (CallCalcTransports c v tau t_on_v s_on_v, Returned)
        ∈ events (main X args c0) ->
      e = NoSectionError "output" /\
      length (events (main X args c0)) = 7 /\
      name args = None /\ outdir args = None.
Proof.
  intros Hs.
  assert (forall trans,
            finish X trans c0 = mkRun c0 [] (Raise (NoSectionError "output")))
    as Hfinish.
  { intros trans. rewrite finish_run.
    unfold ConfigParser.getboolean, ConfigParser.get, ConfigParser.unify_values.
    rewrite Hs. reflexivity. }
  destruct (main_shape (X:=X) args c0)
    as [(e & Hout & Hph & _)
       |(c & t & s & tau & v & t_on_v & s_on_v & Hov & _ & _ & _ & _ & _ & _
         & Hrun)].
  - exists e. split; [exact Hout|]. split.
    + apply closed_before_save. eapply Forall_impl; [exact Hph|].
      intros ev H. simpl in *. lia.
    + intros c v tau t_on_v s_on_v Hin.
      rewrite Forall_forall in Hph. specialize (Hph _ Hin). simpl in Hph. lia.
  - assert (name args = None /\ outdir args = None /\ c = c0) as (Hn & Hd & ->).
    { revert Hov. unfold overridden.
      destruct (name args) as [n|]; simpl.
      - destruct (set_needs_section c0 "name" n Hs) as [e ->]. discriminate.
      - destruct (outdir args) as [d|].
        + destruct (set_needs_section c0 "outdir" d Hs) as [e ->]. discriminate.
        + intros [= <-]. repeat split. }
    cbn zeta in Hrun. rewrite Hrun. cbn [events outcome].
    pose proof (loading_phase (X:=X) args c0 t s tau v t_on_v s_on_v) as Hl.
    destruct (transports_calc_transports_from_sections X c0 v tau t_on_v s_on_v)
      as [trans|e]; cbn [after_calc outcome_of events outcome].
    + rewrite Hfinish. cbn [events outcome].
      exists (NoSectionError "output"). split; [reflexivity|]. split.
      * rewrite closed_app. cbn [closed]. rewrite closed_before_save; [reflexivity|].
        eapply Forall_impl; [exact Hl|]. intros ev [H _]. lia.
      * intros _ _ _ _ _ _. repeat split; assumption.
    + exists e. split; [reflexivity|]. split.
      * rewrite closed_app. cbn [closed]. rewrite closed_before_save; [reflexivity|].
        eapply Forall_impl; [exact Hl|]. intros ev [H _]. lia.
      * intros c v' tau' t_on_v' s_on_v' Hin.
        apply elem_of_app in Hin as [Hin|Hin].
        -- rewrite Forall_forall in Hl. destruct (Hl _ Hin) as [Hp _].
           simpl in Hp. lia.
        -- apply list_elem_of_singleton in Hin. discriminate.
Qed.

Lemma finish_trans trans c (ev : Event X) tr :
  ev ∈ events (finish X trans c) ->
  trans_of_call ev.1 = Some tr -> tr = trans.
Proof.
  rewrite finish_run. intros Hin Htr.
  assert (ev ∈ events (call_plotdiag X trans c) -> tr = trans) as Hplot.
  { intros H. apply call_plotdiag_events in H as (time_avg & _ & H).
    destruct H as [(kind & f & _ & ->)
                  |(f & obs & ? & ? & ? & _ & _ & _ & _ & ->)];
      simpl in Htr; congruence. }
  assert (ev ∈ events (save X trans c) -> tr = trans) as Hsave.
  { rewrite save_run. destruct (trans_filepath X trans); cbn [events];
      rewrite ?elem_of_cons, elem_of_nil; intros H;
      repeat (destruct H as [->|H]; [simpl in Htr; congruence|]);
      contradiction. }
  destruct (ConfigParser.getboolean c "output" "plot") as [[|]|e].
  - destruct (outcome (call_plotdiag X trans c)); cbn [events] in Hin.
    + apply elem_of_app in Hin as [H|H]; [apply Hplot | apply Hsave]; exact H.
    + apply Hplot. exact Hin.
  - apply Hsave. exact Hin.
  - cbn [events] in Hin. apply elem_of_nil in Hin. contradiction.
Qed.

(** X6. The result that [main] has plotted, asks for its path and closes is
    the one object the transport computation returned in that run. *)
Theorem result_is_handed_on args c0 (call : Call X) o tr :
  (call, o) ∈ events (main X args c0) ->
  trans_of_call call = Some tr ->
  exists c v tau t_on_v s_on_v,
    (CallCalcTransports c v tau t_on_v s_on_v, Returned)
      ∈ events (main X args c0) /\
    transports_calc_transports_from_sections X c v tau t_on_v s_on_v = Ok tr.
Proof.
  intros Hin Htr.
  destruct (main_shape (X:=X) args c0)
    as [(e & _ & Hph & _)
       |(c & t & s & tau & v & t_on_v & s_on_v & _ & _ & _ & _ & _ & _ & _
         & Hrun)].
  - rewrite Forall_forall in Hph. specialize (Hph _ Hin).
    destruct call; simpl in Hph, Htr; try discriminate; lia.
  - cbn zeta in Hrun. rewrite Hrun in Hin |- *. cbn [events] in *.
    exists c, v, tau, t_on_v, s_on_v.
    apply elem_of_app in Hin as [Hin|Hin].
    { pose proof (loading_phase (X:=X) args c t s tau v t_on_v s_on_v) as Hl.
      rewrite Forall_forall in Hl. destruct (Hl _ Hin) as [Hp _].
      destruct call; simpl in Hp, Htr; try discriminate; lia. }
    apply elem_of_cons in Hin as [Hin|Hin].
    { injection Hin as -> _. discriminate. }
    destruct (transports_calc_transports_from_sections X c v tau t_on_v s_on_v)
      as [trans|e]; cbn [after_calc events outcome_of] in *.
    + rewrite (finish_trans trans c _ tr Hin Htr).
      split; [|reflexivity].
      apply elem_of_app. right. left.
    + apply elem_of_nil in Hin. contradiction.
Qed.

(** ** The order of the calls in [call_plotdiag] *)

Lemma ranked_silent lo hi {A} (m : M X A) :
  (forall c, events (m c) = []) -> ranked lo hi m.
Proof. intros H c. rewrite H. split; constructor. Qed.

Lemma ranked_calling lo hi {A} call (f : ConfigParser.t -> result A) :
  (forall c, lo <= plot_rank (call c) < hi) -> ranked lo hi (calling X call f).
Proof.
  intros H c. cbn [calling events]. split.
  - repeat constructor.
  - constructor; [apply H | constructor].
Qed.

Lemma ranked_bind lo mid hi {A B} (m : M X A) (k : A -> M X B) :
  lo <= mid -> mid <= hi ->
  ranked lo mid m -> (forall a, ranked mid hi (k a)) ->
  ranked lo hi (bind X m k).
Proof.
  intros Hlo Hhi Hm Hk c. rewrite bind_unfold.
  destruct (Hm c) as [Hs1 Hb1].
  assert (Forall (fun ev : Event X => lo <= plot_rank ev.1 < hi) (events (m c)))
    as Hb1' by (eapply Forall_impl; [exact Hb1 | intros ev H; simpl in *; lia]).
  destruct (outcome (m c)) as [a|e]; cbn [events]; [|split; assumption].
  destruct (Hk a (config_after (m c))) as [Hs2 Hb2]. split.
  - apply StronglySorted_app_2; [|assumption..].
    rewrite Forall_forall in Hb1, Hb2. intros x1 x2 H1 H2.
    specialize (Hb1 _ H1). specialize (Hb2 _ H2). simpl in *. lia.
  - apply Forall_app. split; [exact Hb1'|].
    eapply Forall_impl; [exact Hb2 | intros ev H; simpl in *; lia].
Qed.

Lemma ranked_get_config_opt lo hi section opt :
  ranked lo hi (get_config_opt X section opt).
Proof. apply ranked_silent. intros c. rewrite get_config_opt_run. reflexivity. Qed.

Lemma ranked_load lo hi kind f time_avg :
  (forall f', lo <= plot_rank (CallObs (X:=X) kind f' time_avg) < hi) ->
  ranked lo hi (load_if_specified X kind f time_avg).
Proof.
  intros H. destruct f as [f'|]; simpl.
  - apply (ranked_bind lo hi hi); [specialize (H f'); lia | lia | |].
    + apply ranked_calling. intros _. apply H.
    + intros obs. apply ranked_silent. reflexivity.
  - apply ranked_silent. reflexivity.
Qed.

(** X7. Whatever is configured, [call_plotdiag] calls the loaders in the
    order heat transports, Florida current, streamfunctions, volume
    transports, each at most once, and the reporter after them, at most once:
    the ranks along its log increase strictly, and it calls nothing else. *)
Theorem call_plotdiag_calls_in_order trans c :
  StronglySorted (fun a b : Event X => plot_rank a.1 < plot_rank b.1)
                 (events (call_plotdiag X trans c)) /\
  Forall (fun ev : Event X => plot_rank ev.1 < 5)
         (events (call_plotdiag X trans c)).
Proof.
  assert (ranked 0 5 (call_plotdiag X trans)) as H.
  { unfold call_plotdiag.
    do 5 (apply (ranked_bind 0 0 5);
          [lia | lia | apply ranked_get_config_opt | intros ?]).
    apply (ranked_bind 0 1 5);
      [lia | lia | apply ranked_load; intros; simpl; lia | intros ?].
    apply (ranked_bind 1 2 5);
      [lia | lia | apply ranked_load; intros; simpl; lia | intros ?].
    apply (ranked_bind 2 3 5);
      [lia | lia | apply ranked_load; intros; simpl; lia | intros ?].
    apply (ranked_bind 3 4 5);
      [lia | lia | apply ranked_load; intros; simpl; lia | intros ?].
    do 3 (apply (ranked_bind 4 4 5);
          [lia | lia | apply ranked_silent; reflexivity | intros ?]).
    apply ranked_calling. intros _. simpl. lia. }
  destruct (H c) as [Hs Hb]. split; [exact Hs|].
  eapply Forall_impl; [exact Hb|]. intros ev Hev. simpl in *. lia.
Qed.

(** X8. The five options of the [observations] section are read before the
    first file is touched: when reading one of them raises, [call_plotdiag]
    makes no call at all and ends in an interpolation error. *)
Theorem unreadable_option_loads_nothing trans c key e :
  key ∈ observation_options ->
  outcome (get_config_opt X "observations" key c) = Raise e ->
  events (call_plotdiag X trans c) = [] /\
  exists e',
    outcome (call_plotdiag X trans c) = Raise e' /\
    is_interpolation_error e' = true.
Proof.
  intros Hkey Hraise. rewrite get_config_opt_run in Hraise.
  cbn [outcome] in Hraise.
  assert (forall opt e0,
            get_config_opt_value c "observations" opt = Raise e0 ->
            is_interpolation_error e0 = true) as Herr
    by (intros opt e0; apply get_config_opt_value_raises; discriminate).
  unfold call_plotdiag.
  rewrite bind_unfold, get_config_opt_run. cbn [outcome events config_after].
  destruct (get_config_opt_value c "observations" "time_avg")
    as [time_avg|e0] eqn:H1;
    [|split; [reflexivity | exists e0; split; [reflexivity | eauto]]].
  cbn zeta. rewrite bind_unfold, get_config_opt_run.
  cbn [outcome events config_after app].
  destruct (get_config_opt_value c "observations" "streamfunctions")
    as [sf|e0] eqn:H2;
    [|split; [reflexivity | exists e0; split; [reflexivity | eauto]]].
  cbn zeta. rewrite bind_unfold, get_config_opt_run.
  cbn [outcome events config_after app].
  destruct (get_config_opt_value c "observations" "florida_current")
    as [fc|e0] eqn:H3;
    [|split; [reflexivity | exists e0; split; [reflexivity | eauto]]].
  cbn zeta. rewrite bind_unfold, get_config_opt_run.
  cbn [outcome events config_after app].
  destruct (get_config_opt_value c "observations" "volume_transports")
    as [vol|e0] eqn:H4;
    [|split; [reflexivity | exists e0; split; [reflexivity | eauto]]].
  cbn zeta. rewrite bind_unfold, get_config_opt_run.
  cbn [outcome events config_after app].
  destruct (get_config_opt_value c "observations" "heat_transports")
    as [oht|e0] eqn:H5;
    [|split; [reflexivity | exists e0; split; [reflexivity | eauto]]].
  exfalso. unfold observation_options in Hkey.
  rewrite !elem_of_cons, elem_of_nil in Hkey.
  destruct Hkey as [->|[->|[->|[->|[->|[]]]]]]; congruence.
Qed.

(** ** When [call_plotdiag] returns, continued *)

(** X9. When [call_plotdiag] returns, every call it made returned, the
    reporter was called, and every kind whose option is present, be its value
    the empty text, had its loader called on that value. *)
Theorem call_plotdiag_returns_after_reporting trans c :
  outcome (call_plotdiag X trans c) = Ok tt ->
  Forall (fun ev : Event X => ev.2 = Returned)
         (events (call_plotdiag X trans c)) /\
  (exists name outdir date_format obs_vol obs_fc obs_oht obs_sf,
     (CallPlot trans name outdir date_format obs_vol obs_fc obs_oht obs_sf,
      Returned) ∈ events (call_plotdiag X trans c)) /\
  (forall kind f,
     ConfigParser.has_option c "observations" (obs_key kind) = true ->
     ConfigParser.get c "observations" (obs_key kind) = Ok f ->
     exists time_avg,
       (CallObs kind f time_avg, Returned)
         ∈ events (call_plotdiag X trans c)).
Proof.
  intros H.
  apply call_plotdiag_returns_log in H
    as (time_avg & f & name & outdir & date_format & obs_vol & obs_fc
        & obs_oht & obs_sf & Hf & ->).
  split; [|split].
  - destruct (f HeatTransport), (f FloridaCurrent), (f StreamFunction),
      (f VolumeTransport); repeat constructor.
  - exists name, outdir, date_format, obs_vol, obs_fc, obs_oht, obs_sf.
    rewrite !elem_of_app. do 4 right. apply list_elem_of_singleton. reflexivity.
  - intros kind path Hhas Hget. exists time_avg.
    assert (f kind = Some path) as Hk.
    { specialize (Hf kind). unfold get_config_opt_value in Hf.
      rewrite Hhas, Hget in Hf. simpl in Hf. congruence. }
    rewrite !elem_of_app.
    destruct kind; rewrite Hk.
    + left. left.
    + right; left. left.
    + do 2 right; left. left.
    + do 3 right; left. left.
Qed.

End More.

(** ** The same on concrete runs *)

(** The guard of [get_config_opt] does not cover the section without a name:
    [has_option] then looks in the defaults, [get] for a section. *)
Example get_config_opt_nameless_section :
  outcome (get_config_opt (stub true) "" "time_avg"
             (ConfigParser.mk {["time_avg" := "monthly"]} ∅))
  = Raise (NoSectionError "").
Proof. vm_compute. reflexivity. Qed.

Lemma get_config_opt_raises_run :
  "observations" <> "" /\
  outcome (get_config_opt (stub true) "observations" "time_avg" cfg_unreadable)
  = Raise (InterpolationMissingOptionError "time_avg" "observations"
             "nowhere") /\
  is_interpolation_error
    (InterpolationMissingOptionError "time_avg" "observations" "nowhere")
  = true.
Proof.
  assert ("observations" <> "") as Hne by discriminate.
  assert (outcome (get_config_opt (stub true) "observations" "time_avg"
                     cfg_unreadable)
          = Raise (InterpolationMissingOptionError "time_avg" "observations"
                     "nowhere")) as Hraise by (vm_compute; reflexivity).
  split; [exact Hne|]. split; [exact Hraise|].
  exact (get_config_opt_raises_interpolation_only _ _ _ _ Hne Hraise).
Defined.


Lemma overrides_leave_other_sections_run :
  let args := args_demo (Some "exp1") (Some "/over") in
  exists c,
    overridden args (cfg_obs "yes") = Ok c /\
    ConfigParser.defaults c = ConfigParser.defaults (cfg_obs "yes") /\
    ConfigParser.has_option c "observations" "time_avg"
    = ConfigParser.has_option (cfg_obs "yes") "observations" "time_avg" /\
    ConfigParser.get c "observations" "time_avg"
    = ConfigParser.get (cfg_obs "yes") "observations" "time_avg" /\
    outcome (get_config_opt (stub true) "observations" "time_avg" c)
    = outcome (get_config_opt (stub true) "observations" "time_avg"
                 (cfg_obs "yes")).
Proof.
  cbv zeta.
  destruct (overridden (args_demo (Some "exp1") (Some "/over")) (cfg_obs "yes"))
    as [c|e] eqn:Hov; [|vm_compute in Hov; discriminate].
  exists c. split; [reflexivity|].
  apply (overrides_leave_other_sections (X:=stub true) _ _ _ _ _ Hov).
  discriminate.
Defined.

Lemma rejected_override_run :
  let args := args_demo (Some "50%") None in
  overridden args (cfg_plain "yes")
  = Raise (InvalidInterpolationSyntax "50%" 2) /\
  events (main (stub true) args (cfg_plain "yes")) = [] /\
  outcome (main (stub true) args (cfg_plain "yes"))
  = Raise (InvalidInterpolationSyntax "50%" 2) /\
  (InvalidInterpolationSyntax "50%" 2 = NoSectionError "output" \/
   exists value,
     (name args = Some value \/ outdir args = Some value) /\
     (exists position,
        InvalidInterpolationSyntax "50%" 2
        = InvalidInterpolationSyntax value position) /\
     ConfigParser.before_set value
     = Raise (InvalidInterpolationSyntax "50%" 2)).
Proof.
  cbv zeta.
  assert (overridden (args_demo (Some "50%") None) (cfg_plain "yes")
          = Raise (InvalidInterpolationSyntax "50%" 2)) as Hov
    by (vm_compute; reflexivity).
  split; [exact Hov|].
  exact (rejected_override_stops_before_loading _ _ _ Hov).
Defined.

Lemma no_output_section_run :
  ConfigParser.sections cfg_empty !! "output" = None /\
  exists e,
    outcome (main (stub true) (args_demo None None) cfg_empty) = Raise e /\
    closed (events (main (stub true) (args_demo None None) cfg_empty)) = 0 /\
    forall c v tau t_on_v s_on_v,
      (CallCalcTransports c v tau t_on_v s_on_v, Returned)
        ∈ events (main (stub true) (args_demo None None) cfg_empty) ->
      e = NoSectionError "output" /\
      length (events (main (stub true) (args_demo None None) cfg_empty)) = 7 /\
      name (args_demo None None) = None /\
      outdir (args_demo None None) = None.
Proof.
  assert (ConfigParser.sections cfg_empty !! "output" = None) as Hs
    by reflexivity.
  split; [exact Hs|].
  exact (no_output_section_never_succeeds _ _ Hs).
Defined.

Lemma result_is_handed_on_run :
  let r := main (stub true) (args_demo None None) (cfg_obs "yes") in
  (CallClose (X:=stub true) "transports.nc", Returned) ∈ events r /\
  exists c v tau t_on_v s_on_v,
    (CallCalcTransports c v tau t_on_v s_on_v, Returned) ∈ events r /\
    transports_calc_transports_from_sections (stub true) c v tau t_on_v s_on_v
    = Ok "transports.nc".
Proof.
  cbv zeta.
  assert ((CallClose (X:=stub true) "transports.nc", Returned)
            ∈ events (main (stub true) (args_demo None None) (cfg_obs "yes")))
    as Hin by (apply (list_elem_of_lookup_2 _ 12); vm_compute; reflexivity).
  split; [exact Hin|].
  exact (result_is_handed_on _ _ _ _ _ Hin eq_refl).
Defined.

Lemma unreadable_option_run :
  "time_avg" ∈ observation_options /\
  events (call_plotdiag (stub true) "transports.nc" cfg_unreadable) = [] /\
  exists e',
    outcome (call_plotdiag (stub true) "transports.nc" cfg_unreadable)
    = Raise e' /\
    is_interpolation_error e' = true.
Proof.
  assert ("time_avg" ∈ observation_options) as Hkey by left.
  split; [exact Hkey|].
  apply (unreadable_option_loads_nothing (X:=stub true) "transports.nc"
           cfg_unreadable "time_avg"
           (InterpolationMissingOptionError "time_avg" "observations"
              "nowhere") Hkey).
  vm_compute. reflexivity.
Defined.

Lemma call_plotdiag_returns_run :
  let r := call_plotdiag (stub true) "transports.nc" (cfg_obs "yes") in
  outcome r = Ok tt /\
  Forall (fun ev : Event (stub true) => ev.2 = Returned) (events r) /\
  (exists name outdir date_format obs_vol obs_fc obs_oht obs_sf,
     (CallPlot (X:=stub true) "transports.nc" name outdir date_format
        obs_vol obs_fc obs_oht obs_sf, Returned) ∈ events r) /\
  (forall kind f,
     ConfigParser.has_option (cfg_obs "yes") "observations" (obs_key kind)
     = true ->
     ConfigParser.get (cfg_obs "yes") "observations" (obs_key kind) = Ok f ->
     exists time_avg, (CallObs kind f time_avg, Returned) ∈ events r).
Proof.
  cbv zeta.
  assert (outcome (call_plotdiag (stub true) "transports.nc" (cfg_obs "yes"))
          = Ok tt) as Hok by (vm_compute; reflexivity).
  split; [exact Hok|].
  exact (call_plotdiag_returns_after_reporting _ _ Hok).
Defined.
